(** * TribuAnalyzer Pro: metrics normalization, health classification,
      aggregation and the advisory fallback loops

    Shallow embedding of
    - the campaigns route (per-campaign normalization, [extractPurchases],
      [extractAction], [extractRevenue]),
    - the dashboard client ([getCampaignHealth], [filteredCampaigns],
      [totals], the reader loop of [sendChatMessage]),
    - the analyze and chat routes (the [for (const modelId of models)]
      fallback loops).

    JavaScript numbers are IEEE 754 binary64 values.  They are modelled by
    [spec_float] at precision 53 and maximal exponent 1024, with the
    operations of the Standard Library's [SpecFloat]. *)

From Stdlib Require Import ZArith List String Ascii Bool Lia Permutation.
From Stdlib Require Import Floats.SpecFloat.
Import ListNotations.

Local Open Scope string_scope.
Local Open Scope Z_scope.

(** ** JavaScript numbers and the built-ins the routes call *)

Module JS.

Definition prec : Z := 53.
Definition emax : Z := 1024.

Definition number : Type := spec_float.

Definition NaN : number := S754_nan.
Definition zero : number := S754_zero false.

(** [of_Z n] is the Number value for the mathematical integer [n]
    (round to nearest, ties to even). *)
Definition of_Z (n : Z) : number := binary_normalize prec emax n 0 false.

(** [of_decimal neg m e] is the Number value for [m * 10^e] with the sign
    [neg], for a non-negative integer [m]: the value a decimal literal
    denotes. *)
Definition of_decimal (neg : bool) (m e : Z) : number :=
  match m with
  | Zpos p =>
      match e with
      | Zneg k =>
          let '(q, e', l) :=
            SFdiv_core_binary prec emax (Zpos p) 0 (Z.pow_pos 10 k) 0 in
          binary_round_aux prec emax neg q e' l
      | _ => binary_normalize prec emax (cond_Zopp neg (Zpos p * 10 ^ e)) 0 false
      end
  | _ => S754_zero neg
  end.

Definition add (x y : number) : number := SFadd prec emax x y.
Definition div (x y : number) : number := SFdiv prec emax x y.

(** [x === y], [x < y], [x <= y], [x > y], [x >= y] on numbers. *)
Definition eqb (x y : number) : bool := SFeqb x y.
Definition ltb (x y : number) : bool := SFltb x y.
Definition leb (x y : number) : bool := SFleb x y.
Definition gtb (x y : number) : bool := SFltb y x.
Definition geb (x y : number) : bool := SFleb y x.

(** ToBoolean on a number: [+0], [-0] and [NaN] are falsy. *)
Definition truthy (x : number) : bool :=
  match x with
  | S754_zero _ | S754_nan => false
  | _ => true
  end.

(** [x || d] on numbers. *)
Definition or_num (x d : number) : number := if truthy x then x else d.

(** [s || d] where [s] is a string property that may be missing
    ([undefined]); the empty string is falsy. *)
Definition or_str (s : option string) (d : string) : string :=
  match s with
  | None | Some EmptyString => d
  | Some t => t
  end.

(** Strings are sequences of code units; the model has the code units
    below 256.  White space among them: TAB, LF, VT, FF, CR, SP, NBSP. *)
Definition isWhiteSpace (c : ascii) : bool :=
  let n := N_of_ascii c in
  (N.eqb n 9 || N.eqb n 10 || N.eqb n 11 || N.eqb n 12 || N.eqb n 13
   || N.eqb n 32 || N.eqb n 160)%bool.

Fixpoint trimStart (s : string) : string :=
  match s with
  | String c r => if isWhiteSpace c then trimStart r else s
  | EmptyString => s
  end.

(** Value of a code unit as a digit in a radix up to 36. *)
Definition digitValue (c : ascii) : option Z :=
  let n := Z.of_N (N_of_ascii c) in
  if (48 <=? n) && (n <=? 57) then Some (n - 48)
  else if (97 <=? n) && (n <=? 122) then Some (n - 87)
  else if (65 <=? n) && (n <=? 90) then Some (n - 55)
  else None.

Definition radixDigit (R : Z) (c : ascii) : option Z :=
  match digitValue c with
  | Some d => if d <? R then Some d else None
  | None => None
  end.

(** The longest prefix of radix-[R] digits, and what follows it. *)
Fixpoint spanDigits (R : Z) (s : string) : list Z * string :=
  match s with
  | String c r =>
      match radixDigit R c with
      | Some d => let '(ds, rest) := spanDigits R r in (d :: ds, rest)
      | None => ([], s)
      end
  | EmptyString => ([], s)
  end.

Definition digitsValue (R : Z) (ds : list Z) : Z :=
  fold_left (fun a d => a * R + d) ds 0.

(** An optional leading [+] or [-]: whether it is [-], and the rest. *)
Definition stripSign (s : string) : bool * string :=
  match s with
  | String "-" r => (true, r)
  | String "+" r => (false, r)
  | _ => (false, s)
  end.

(** [parseInt(s)] with no radix argument. *)
Definition parseInt (s : string) : number :=
  let '(neg, s1) := stripSign (trimStart s) in
  let '(R, s2) :=
    match s1 with
    | String "0" (String "x" r) => (16, r)
    | String "0" (String "X" r) => (16, r)
    | _ => (10, s1)
    end in
  match fst (spanDigits R s2) with
  | [] => NaN
  | ds =>
      let n := digitsValue R ds in
      if n =? 0 then S754_zero neg
      else binary_normalize prec emax (cond_Zopp neg n) 0 false
  end.

(** The exponent part of a decimal literal at the head of [s], 0 when
    there is none ([e] or [E], an optional sign, at least one digit). *)
Definition exponentPart (s : string) : Z :=
  let body (r : string) :=
    let '(neg, r1) := stripSign r in
    match fst (spanDigits 10 r1) with
    | [] => 0
    | ds => cond_Zopp neg (digitsValue 10 ds)
    end in
  match s with
  | String "e" r => body r
  | String "E" r => body r
  | _ => 0
  end.

(** [parseFloat(s)]: the value of the longest prefix of the trimmed
    string that is a StrDecimalLiteral, [NaN] when there is none. *)
Definition parseFloat (s : string) : number :=
  let '(neg, u) := stripSign (trimStart s) in
  if prefix "Infinity" u then S754_infinity neg
  else
    let '(ip, r1) := spanDigits 10 u in
    let '(fp, r2) :=
      match r1 with
      | String "." r =>
          match spanDigits 10 r with
          | ([], _) => ([], match ip with [] => r1 | _ => r end)
          | fr => fr
          end
      | _ => ([], r1)
      end in
    match (ip ++ fp)%list with
    | [] => NaN
    | ds =>
        of_decimal neg (digitsValue 10 ds)
          (exponentPart r2 - Z.of_nat (List.length fp))
    end.

End JS.

(** ** Data model *)

(** The raw campaign descriptor of the platform: [{id, name, status}]. *)
Module Descriptor.
Record t : Type := mk { id : string; name : string; status : string }.
End Descriptor.

(** One entry of [actions] or [action_values].  [value] may be missing. *)
Module RawAction.
Record t : Type := mk { action_type : string; value : option string }.
End RawAction.

(** One insights row; every property may be missing. *)
Module Insights.
Record t : Type := mk {
  campaign_name : option string;
  spend : option string;
  impressions : option string;
  ctr : option string;
  frequency : option string;
  actions : option (list RawAction.t);
  action_values : option (list RawAction.t)
}.
End Insights.

(** The canonical record: the object the campaigns route returns per
    campaign, and the [Campaign] interface of the dashboard. *)
Module Campaign.
Record t : Type := mk {
  name : string;
  status : string;
  spend : JS.number;
  impressions : JS.number;
  ctr : JS.number;
  frequency : JS.number;
  purchases : JS.number;
  addToCart : JS.number;
  initiateCheckout : JS.number;
  revenue : JS.number;
  roas : JS.number
}.
End Campaign.

(** ** The campaigns route *)

Module CampaignsRoute.
Import JS.

(** [list.includes(x)] on an array of strings. *)
Definition includes (l : list string) (x : string) : bool :=
  existsb (String.eqb x) l.

Definition purchaseTypes : list string :=
  ["omni_purchase"; "purchase"; "offsite_conversion.fb_pixel_purchase"].
Definition addToCartTypes : list string :=
  ["omni_add_to_cart"; "add_to_cart"; "offsite_conversion.fb_pixel_add_to_cart"].
Definition initiateCheckoutTypes : list string :=
  ["omni_initiated_checkout"; "initiate_checkout";
   "offsite_conversion.fb_pixel_initiate_checkout"].

(** The [for (const action of actions)] loop shared by the three
    extractors: the first action whose type is included returns
    [parse(action.value || '0')]. *)
Fixpoint scan (parse : string -> number) (actionTypes : list string)
    (actions : list RawAction.t) : number :=
  match actions with
  | [] => zero
  | action :: rest =>
      if includes actionTypes (RawAction.action_type action)
      then parse (or_str (RawAction.value action) "0")
      else scan parse actionTypes rest
  end.

Definition extractPurchases (actions : option (list RawAction.t)) : number :=
  match actions with
  | None => zero
  | Some l => scan parseInt purchaseTypes l
  end.

Definition extractAction (actions : option (list RawAction.t))
    (actionTypes : list string) : number :=
  match actions with
  | None => zero
  | Some l => scan parseInt actionTypes l
  end.

Definition extractRevenue (actionValues : option (list RawAction.t)) : number :=
  match actionValues with
  | None => zero
  | Some l => scan parseFloat purchaseTypes l
  end.

(** What the insights request of one campaign comes to: [fetch] or
    [insightsResponse.json()] throws (timeout, network, malformed body), or
    the body is read and [insightsData.data] is missing or an array. *)
Inductive InsightsReply : Type :=
  | Threw
  | Replied (data : option (list Insights.t)).

(** [insightsData.data?.[0]]. *)
Definition firstRow (data : option (list Insights.t)) : option Insights.t :=
  match data with
  | Some (row :: _) => Some row
  | _ => None
  end.

Definition zeroRecord (campaign : Descriptor.t) : Campaign.t :=
  {| Campaign.name := Descriptor.name campaign;
     Campaign.status := Descriptor.status campaign;
     Campaign.spend := zero;
     Campaign.impressions := zero;
     Campaign.ctr := zero;
     Campaign.frequency := zero;
     Campaign.purchases := zero;
     Campaign.addToCart := zero;
     Campaign.initiateCheckout := zero;
     Campaign.revenue := zero;
     Campaign.roas := zero |}.

(** The body of [if (insights) { ... }]. *)
Definition fromInsights (campaign : Descriptor.t) (insights : Insights.t)
    : Campaign.t :=
  let spend := parseFloat (or_str (Insights.spend insights) "0") in
  let revenue := extractRevenue (Insights.action_values insights) in
  let roas := if gtb spend zero then div revenue spend else zero in
  {| Campaign.name :=
       or_str (Insights.campaign_name insights) (Descriptor.name campaign);
     Campaign.status := Descriptor.status campaign;
     Campaign.spend := spend;
     Campaign.impressions := parseInt (or_str (Insights.impressions insights) "0");
     Campaign.ctr := parseFloat (or_str (Insights.ctr insights) "0");
     Campaign.frequency := parseFloat (or_str (Insights.frequency insights) "0");
     Campaign.purchases := extractPurchases (Insights.actions insights);
     Campaign.addToCart :=
       extractAction (Insights.actions insights) addToCartTypes;
     Campaign.initiateCheckout :=
       extractAction (Insights.actions insights) initiateCheckoutTypes;
     Campaign.revenue := revenue;
     Campaign.roas := roas |}.

(** The callback of [campaigns.map(async (campaign) => ...)]: one record
    per campaign, whatever the insights request comes to. *)
Definition normalize (campaign : Descriptor.t) (reply : InsightsReply)
    : Campaign.t :=
  match reply with
  | Threw => zeroRecord campaign
  | Replied data =>
      match firstRow data with
      | Some insights => fromInsights campaign insights
      | None => zeroRecord campaign
      end
  end.

(** The status filter of the route, then one record per campaign. *)
Definition campaignsWithInsights (status : option string)
    (campaigns : list Descriptor.t) (reply : Descriptor.t -> InsightsReply)
    : list Campaign.t :=
  let campaigns :=
    match status with
    | None | Some EmptyString => campaigns
    | Some s =>
        if String.eqb s "ALL" then campaigns
        else filter (fun c => String.eqb (Descriptor.status c) s) campaigns
    end in
  map (fun campaign => normalize campaign (reply campaign)) campaigns.

End CampaignsRoute.

(** ** The dashboard client *)

Module Dashboard.
Import JS.

Inductive Health : Type := green | yellow | red | gray.

Definition one : number := of_Z 1.
Definition two : number := of_Z 2.
Definition three : number := of_Z 3.
Definition five : number := of_Z 5.
Definition lit_1_5 : number := of_decimal false 15 (-1).
Definition lit_0_8 : number := of_decimal false 8 (-1).

Definition getCampaignHealth (c : Campaign.t) : Health :=
  if eqb (Campaign.spend c) zero && eqb (Campaign.impressions c) zero
  then gray
  else if geb (Campaign.roas c) two && geb (Campaign.ctr c) lit_1_5
          && leb (Campaign.frequency c) three
  then green
  else if ltb (Campaign.roas c) one || ltb (Campaign.ctr c) lit_0_8
          || gtb (Campaign.frequency c) five
  then red
  else yellow.

Inductive StatusFilter : Type := ALL | ACTIVE | PAUSED | ARCHIVED.

Definition filterName (f : StatusFilter) : string :=
  match f with
  | ALL => "ALL"
  | ACTIVE => "ACTIVE"
  | PAUSED => "PAUSED"
  | ARCHIVED => "ARCHIVED"
  end.

Definition filteredCampaigns (statusFilter : StatusFilter)
    (campaigns : list Campaign.t) : list Campaign.t :=
  match statusFilter with
  | ALL => campaigns
  | _ =>
      filter (fun c => String.eqb (Campaign.status c) (filterName statusFilter))
        campaigns
  end.

Module Totals.
Record t : Type := mk {
  spend : number;
  impressions : number;
  revenue : number;
  purchases : number;
  addToCart : number;
  initiateCheckout : number
}.
End Totals.

(** The reducer of [totals]. *)
Definition addCampaign (acc : Totals.t) (c : Campaign.t) : Totals.t :=
  {| Totals.spend := add (Totals.spend acc) (Campaign.spend c);
     Totals.impressions := add (Totals.impressions acc) (Campaign.impressions c);
     Totals.revenue := add (Totals.revenue acc) (Campaign.revenue c);
     Totals.purchases := add (Totals.purchases acc) (Campaign.purchases c);
     Totals.addToCart :=
       add (Totals.addToCart acc) (or_num (Campaign.addToCart c) zero);
     Totals.initiateCheckout :=
       add (Totals.initiateCheckout acc)
           (or_num (Campaign.initiateCheckout c) zero) |}.

Definition noTotals : Totals.t :=
  {| Totals.spend := zero; Totals.impressions := zero; Totals.revenue := zero;
     Totals.purchases := zero; Totals.addToCart := zero;
     Totals.initiateCheckout := zero |}.

Definition totals (filtered : list Campaign.t) : Totals.t :=
  fold_left addCampaign filtered noTotals.

Definition roasGeneral (t : Totals.t) : number :=
  if gtb (Totals.spend t) zero then div (Totals.revenue t) (Totals.spend t)
  else zero.

Definition cpaGeneral (t : Totals.t) : number :=
  if gtb (Totals.purchases t) zero
  then div (Totals.spend t) (Totals.purchases t)
  else zero.

Definition ctrPromedio (filtered : list Campaign.t) : number :=
  match filtered with
  | [] => zero
  | _ =>
      div (fold_left (fun sum c => add sum (Campaign.ctr c)) filtered zero)
          (of_Z (Z.of_nat (List.length filtered)))
  end.

(** [aggregate(records, statusFilter)]: the totals of the filtered list. *)
Definition aggregate (records : list Campaign.t) (statusFilter : StatusFilter)
    : Totals.t :=
  totals (filteredCampaigns statusFilter records).

End Dashboard.

(** ** The advisory routes: the fallback loop over the model list *)

Module Advisory.
Import JS.

Definition nl : string := String (ascii_of_nat 10) EmptyString.

(** How the stream of one generation ends. *)
Inductive StreamEnd : Type :=
  | Finished
  | Errored (message : option string).

(** What one call [streamText({ model: google(modelId), ... })] comes to:
    the call itself throws, or it returns a result whose stream carries
    text chunks and then finishes or fails. *)
Inductive Generation : Type :=
  | Throws (message : option string)
  | Streams (chunks : list string) (ending : StreamEnd).

Definition models : list string :=
  ["gemini-3.1-pro-preview"; "gemini-3-flash-preview"].

(** The responses the loops return: [new Response(text, ...)] with a
    plain-text body, or [result.toTextStreamResponse()]. *)
Inductive Response : Type :=
  | Text (body : string)
  | TextStream (chunks : list string) (ending : StreamEnd)
  | Json (status : Z) (error : string).

(** What the routes read of a request before the loop: whether
    [supabase.auth.getUser()] gave a user; the body, when
    [request.json()] parses it, as the length of its [campaigns] array
    (analyze) or [messages] array (chat), 0 standing also for a missing
    property or one that is not an array; whether the API key is set. *)
Record Request : Type := {
  user : bool;
  body : option nat;
  apiKey : bool
}.

(** The body built in the [catch] of the last model. *)
Definition errorMsg (message : option string) : string :=
  "# ⚠️ Error de Gemini" ++ nl ++ nl ++ or_str message "Error desconocido".

(** [await result.text]: the whole text, or the error of the generation. *)
Definition awaitText (g : Generation) : string + option string :=
  match g with
  | Throws message => inr message
  | Streams chunks Finished => inl (String.concat "" chunks)
  | Streams _ (Errored message) => inr message
  end.

(** The loop of the analyze route; [None] when it falls off its end. *)
Fixpoint analyzeLoop (backend : string -> Generation) (lastModel : string)
    (remaining : list string) : option Response :=
  match remaining with
  | [] => None
  | modelId :: rest =>
      match awaitText (backend modelId) with
      | inl text => Some (Text text)
      | inr message =>
          if String.eqb modelId lastModel then Some (Text (errorMsg message))
          else analyzeLoop backend lastModel rest
      end
  end.

Definition analyze (backend : string -> Generation) : option Response :=
  analyzeLoop backend (last models "") models.

(** The loop of the chat route: the response is returned as soon as
    [streamText] and [toTextStreamResponse] have returned. *)
Fixpoint chatLoop (backend : string -> Generation) (lastModel : string)
    (remaining : list string) : option Response :=
  match remaining with
  | [] => None
  | modelId :: rest =>
      match backend modelId with
      | Streams chunks ending => Some (TextStream chunks ending)
      | Throws message =>
          if String.eqb modelId lastModel then Some (Text (errorMsg message))
          else chatLoop backend lastModel rest
      end
  end.

Definition chat (backend : string -> Generation) : option Response :=
  chatLoop backend (last models "") models.

(** The analyze route, with the checks that come before the loop. *)
Definition analyzePOST (request : Request) (backend : string -> Generation)
    : option Response :=
  if negb (user request) then Some (Json 401 "No autenticado")
  else
    match body request with
    | None => Some (Json 500 "Error al analizar campañas")
    | Some O => Some (Json 400 "No hay campañas para analizar")
    | Some (S _) =>
        if negb (apiKey request)
        then Some (Text ("# ⚠️ Error de configuración" ++ nl ++ nl
                         ++ "La variable **GOOGLE_GENERATIVE_AI_API_KEY** no está configurada en Vercel."))
        else analyze backend
    end.

(** The chat route, with the checks that come before the loop. *)
Definition chatPOST (request : Request) (backend : string -> Generation)
    : option Response :=
  if negb (user request) then Some (Json 401 "No autenticado")
  else
    match body request with
    | None => Some (Json 500 "Error en el chat")
    | Some O => Some (Json 400 "No hay mensajes")
    | Some (S _) =>
        if negb (apiKey request)
        then Some (Text ("# ⚠️ Error de configuración" ++ nl ++ nl
                         ++ "La variable **GOOGLE_GENERATIVE_AI_API_KEY** no está configurada."))
        else chat backend
    end.

(** A generation failed: at the call, or in its stream. *)
Definition failed (g : Generation) : bool :=
  match g with
  | Throws _ => true
  | Streams _ (Errored _) => true
  | Streams _ Finished => false
  end.

(** The text chunks a response carries from a backend. *)
Definition forwarded (r : option Response) : list string :=
  match r with
  | Some (TextStream chunks _) => chunks
  | _ => []
  end.

End Advisory.

(** ** The chat client: [sendChatMessage] from the request on *)

Module ChatClient.
Import JS.

(** One [await reader.read()]. *)
Inductive ReadResult : Type :=
  | Value (chunk : string)
  | DoneReading
  | ReadRejects (name : string) (message : option string).

(** The [await fetch('/api/chat', ...)]: it rejects, or gives a response
    with its [ok] flag and its body, whose successive reads are listed. *)
Inductive FetchResult : Type :=
  | FetchRejects (name : string) (message : option string)
  | Responds (ok : bool) (body : option (list ReadResult)).

(** The two places that write the assistant message. *)
Inductive Update : Type :=
  | ShowText (fullText : string)
  | ShowError (content : string).

(** [Settled]: the [finally] block ran.  [Pending]: a read has not
    resolved yet. *)
Inductive Outcome : Type :=
  | Settled (log : list Update)
  | Pending (log : list Update).

Definition logOf (o : Outcome) : list Update :=
  match o with
  | Settled log | Pending log => log
  end.

Definition errorContent (message : option string) : string :=
  "# ⚠️ Error" ++ Advisory.nl ++ Advisory.nl
  ++ or_str message "Error desconocido".

(** The [catch (err)] block. *)
Definition catch (name : string) (message : option string)
    (log : list Update) : list Update :=
  if String.eqb name "AbortError" then log
  else (log ++ [ShowError (errorContent message)])%list.

(** The [while (true)] loop. *)
Fixpoint readLoop (fullText : string) (reads : list ReadResult)
    (log : list Update) : Outcome :=
  match reads with
  | [] => Pending log
  | DoneReading :: _ => Settled log
  | Value chunk :: rest =>
      let fullText := fullText ++ chunk in
      readLoop fullText rest (log ++ [ShowText fullText])%list
  | ReadRejects name message :: _ => Settled (catch name message log)
  end.

Definition sendChatMessage (r : FetchResult) : Outcome :=
  match r with
  | FetchRejects name message => Settled (catch name message [])
  | Responds false _ => Settled (catch "Error" (Some "Error del servidor") [])
  | Responds true None => Settled (catch "Error" (Some "No stream") [])
  | Responds true (Some reads) => readLoop "" reads []
  end.

(** The updates that show the chunks [chunks], after [fullText]. *)
Fixpoint shown (fullText : string) (chunks : list string) : list Update :=
  match chunks with
  | [] => []
  | chunk :: rest =>
      ShowText (fullText ++ chunk) :: shown (fullText ++ chunk) rest
  end.

Definition isError (u : Update) : bool :=
  match u with
  | ShowError _ => true
  | ShowText _ => false
  end.

End ChatClient.

(** ** The rule chain of the health classifier, as the specification words it *)

Module Spec.
Import JS.

(** Rule 1: no activity. *)
Definition dormant (m : Campaign.t) : bool :=
  eqb (Campaign.spend m) zero && eqb (Campaign.impressions m) zero.

(** Rule 2: roas >= 2.0 and ctr >= 1.5 and frequency <= 3.0. *)
Definition scalable (m : Campaign.t) : bool :=
  geb (Campaign.roas m) (of_decimal false 20 (-1))
  && geb (Campaign.ctr m) (of_decimal false 15 (-1))
  && leb (Campaign.frequency m) (of_decimal false 30 (-1)).

(** Rule 3: roas < 1.0 or ctr < 0.8 or frequency > 5.0. *)
Definition flagged (m : Campaign.t) : bool :=
  ltb (Campaign.roas m) (of_decimal false 10 (-1))
  || ltb (Campaign.ctr m) (of_decimal false 8 (-1))
  || gtb (Campaign.frequency m) (of_decimal false 50 (-1)).

(** The ordered rules; the first whose predicate holds gives the state. *)
Definition rules : list ((Campaign.t -> bool) * Dashboard.Health) :=
  [(dormant, Dashboard.gray); (scalable, Dashboard.green);
   (flagged, Dashboard.red)].

Fixpoint firstMatch (rs : list ((Campaign.t -> bool) * Dashboard.Health))
    (otherwise : Dashboard.Health) (m : Campaign.t) : Dashboard.Health :=
  match rs with
  | [] => otherwise
  | (applies, state) :: rest =>
      if applies m then state else firstMatch rest otherwise m
  end.

Definition classify (m : Campaign.t) : Dashboard.Health :=
  firstMatch rules Dashboard.yellow m.

(** The payload of the worked examples: a campaign, and an insights row
    with the given spend, ctr, frequency and purchase value. *)
Definition promo : Descriptor.t := Descriptor.mk "1" "Promo" "ACTIVE".

Definition row (spend ctr frequency revenue : string) : Insights.t :=
  Insights.mk None (Some spend) (Some "1000") (Some ctr) (Some frequency)
    (Some [RawAction.mk "purchase" (Some "12")])
    (Some [RawAction.mk "purchase" (Some revenue)]).

(** Whether the type of an action is one of [actionTypes]. *)
Definition matches (actionTypes : list string) (action : RawAction.t) : bool :=
  CampaignsRoute.includes actionTypes (RawAction.action_type action).

(** The position of a type in an ordered set of action types. *)
Fixpoint position (t : string) (l : list string) : nat :=
  match l with
  | [] => 0
  | x :: rest => if String.eqb t x then 0 else S (position t rest)
  end.

(** A string property that is missing or the empty string. *)
Definition missing (o : option string) : bool :=
  match o with
  | None | Some EmptyString => true
  | Some _ => false
  end.

(** *** Strings the parsers cannot read

    The grammar of the two parsers, written on the text itself: leading
    white space, an optional sign, and then what a number starts with.
    A text is held as its UTF-8 bytes, as a string literal is, so the
    white space beyond U+007F is two or three bytes long.  The byte 160
    alone, which [isWhiteSpace] takes for U+00A0, is skipped as well: a
    string that is unparseable here is unparseable on either reading of
    its bytes. *)

Definition byte (c : ascii) (n : N) : bool := N.eqb (N_of_ascii c) n.

Definition isDigit (c : ascii) : bool :=
  let n := N_of_ascii c in (N.leb 48 n && N.leb n 57)%bool.

Definition isHexDigit (c : ascii) : bool :=
  let n := N_of_ascii c in
  (isDigit c || (N.leb 97 n && N.leb n 102) || (N.leb 65 n && N.leb n 70))%bool.

(** U+00A0 in UTF-8. *)
Definition space2 (b1 b2 : ascii) : bool := (byte b1 194 && byte b2 160)%bool.

(** The white space and line terminators of three bytes: U+1680,
    U+2000 to U+200A, U+2028, U+2029, U+202F, U+205F, U+3000, U+FEFF. *)
Definition space3 (b1 b2 b3 : ascii) : bool :=
  let n := N_of_ascii b3 in
  ((byte b1 225 && byte b2 154 && byte b3 128)
   || (byte b1 226 && byte b2 128
       && ((N.leb 128 n && N.leb n 138) || byte b3 168 || byte b3 169
           || byte b3 175))
   || (byte b1 226 && byte b2 129 && byte b3 159)
   || (byte b1 227 && byte b2 128 && byte b3 128)
   || (byte b1 239 && byte b2 187 && byte b3 191))%bool.

(** The first byte of a white space of two or three bytes. *)
Definition isLead (b : ascii) : bool :=
  (byte b 194 || byte b 225 || byte b 226 || byte b 227 || byte b 239)%bool.

(** The text after its leading white space and line terminators, of one
    byte or more. *)
Fixpoint skipSpaces (s : string) : string :=
  match s with
  | String b1 r1 =>
      if isWhiteSpace b1 then skipSpaces r1
      else
        match r1 with
        | String b2 r2 =>
            if space2 b1 b2 then skipSpaces r2
            else
              match r2 with
              | String b3 r3 => if space3 b1 b2 b3 then skipSpaces r3 else s
              | EmptyString => s
              end
        | EmptyString => s
        end
  | EmptyString => s
  end.

(** A decimal literal starts here: a digit, or a dot and a digit. *)
Definition startsDecimal (u : string) : bool :=
  match u with
  | String c rest =>
      (isDigit c
       || (Ascii.eqb c "."
           && match rest with
              | String d _ => isDigit d
              | EmptyString => false
              end))%bool
  | EmptyString => false
  end.

(** An integer starts here: a decimal digit, or, after [0x] or [0X], a
    hexadecimal digit. *)
Definition startsInteger (u : string) : bool :=
  match u with
  | String c rest =>
      if Ascii.eqb c "0"
      then
        match rest with
        | String x hex =>
            if (Ascii.eqb x "x" || Ascii.eqb x "X")%bool
            then match hex with
                 | String h _ => isHexDigit h
                 | EmptyString => false
                 end
            else true
        | EmptyString => true
        end
      else isDigit c
  | EmptyString => false
  end.

(** [s] has a prefix [parseFloat] reads: after white space and an
    optional sign, a decimal literal or [Infinity]. *)
Definition floatPrefix (s : string) : bool :=
  let u := snd (stripSign (skipSpaces s)) in
  (startsDecimal u || prefix "Infinity" u)%bool.

(** [s] has a prefix [parseInt] reads. *)
Definition intPrefix (s : string) : bool :=
  startsInteger (snd (stripSign (skipSpaces s))).

(** A string property that is there, is not empty and has no numeric
    prefix: what [parseFloat], respectively [parseInt], fails on. *)
Definition unparseableFloat (o : option string) : bool :=
  match o with
  | Some (String c rest) => negb (floatPrefix (String c rest))
  | _ => false
  end.

Definition unparseableInt (o : option string) : bool :=
  match o with
  | Some (String c rest) => negb (intPrefix (String c rest))
  | _ => false
  end.

End Spec.

(** ** Numbers that are exact counts *)

Module Count.
Import JS.

(** The integer part of the value of a number (0 for the zeros, the
    infinities and NaN). *)
Definition to_Z (x : number) : Z :=
  match x with
  | S754_finite s m e =>
      cond_Zopp s
        (match e with
         | Z0 => Zpos m
         | Zpos p => Zpos m * Z.pow_pos 2 p
         | Zneg p => Zpos m / Z.pow_pos 2 p
         end)
  | _ => 0
  end.

(** [x] is the Number value of a non-negative integer. *)
Definition isCount (x : number) : Prop :=
  0 <= to_Z x /\ x = of_Z (to_Z x).

(** The six summed fields of a record are counts. *)
Definition countFields (c : Campaign.t) : Prop :=
  isCount (Campaign.spend c) /\ isCount (Campaign.impressions c)
  /\ isCount (Campaign.revenue c) /\ isCount (Campaign.purchases c)
  /\ isCount (Campaign.addToCart c) /\ isCount (Campaign.initiateCheckout c).

(** The exact sum of a field over a list of records. *)
Definition fieldSum (field : Campaign.t -> number) (l : list Campaign.t) : Z :=
  fold_right (fun c s => to_Z (field c) + s) 0 l.

(** Every exact sum of the six fields stays below 2^53. *)
Definition sumsBelow (bound : Z) (l : list Campaign.t) : Prop :=
  fieldSum Campaign.spend l < bound
  /\ fieldSum Campaign.impressions l < bound
  /\ fieldSum Campaign.revenue l < bound
  /\ fieldSum Campaign.purchases l < bound
  /\ fieldSum Campaign.addToCart l < bound
  /\ fieldSum Campaign.initiateCheckout l < bound.

(** [shl m n] is [m * 2^n]: [n] zero bits appended to the mantissa. *)
Definition shl (m : positive) (n : nat) : positive := Nat.iter n xO m.

(** The canonical binary64 representation of the integer [n], when [n]
    has at most 53 bits. *)
Definition canon (s : bool) (n : positive) : number :=
  S754_finite s (shl n (Z.to_nat (prec - Zpos (digits2_pos n))))
    (Zpos (digits2_pos n) - prec).

(** The statuses the dashboard has a filter for. *)
Definition filterable (c : Campaign.t) : Prop :=
  In (Campaign.status c) ["ACTIVE"; "PAUSED"; "ARCHIVED"].

End Count.

(** ** The campaigns route as a whole *)

Module CampaignsGET.
Import JS CampaignsRoute.

(** The row of [meta_connections] the route reads. *)
Record Connection : Type := {
  access_token : option string;
  ad_accounts : option (list string)
}.

(** What the request for the campaign list comes to: it throws, the
    platform answers with an [error] object, or with [data]. *)
Inductive CampaignsFetch : Type :=
  | ListThrows
  | ApiError (message : option string)
  | Listed (data : option (list Descriptor.t)).

(** What the request for the account currency comes to. *)
Inductive AccountFetch : Type :=
  | AccountThrows
  | Account (currency : option string).

(** The JSON body of the reply, with its HTTP status. *)
Inductive Reply : Type :=
  | Failure (status : Z) (error : option string) (needsConnection : bool)
  | Success (data : list Campaign.t) (currency : string) (total : nat).

(** [accountId || connection.ad_accounts?.[0]?.id]. *)
Definition adAccountId (accountId : option string) (c : Connection)
    : option string :=
  match accountId with
  | Some (String a given) => Some (String a given)
  | _ =>
      match ad_accounts c with
      | Some (String a first :: _) => Some (String a first)
      | _ => None
      end
  end.

Definition GET (accountId status : option string) (user : bool)
    (connection : option Connection) (listing : CampaignsFetch)
    (insights : Descriptor.t -> InsightsReply) (account : AccountFetch)
    : Reply :=
  if negb user then Failure 401 (Some "Not authenticated") false
  else
    match connection with
    | None => Failure 400 (Some "Meta not connected") true
    | Some c =>
        match access_token c with
        | None | Some EmptyString =>
            Failure 400 (Some "Meta not connected") true
        | Some _ =>
            match adAccountId accountId c with
            | None => Failure 400 (Some "No ad account found") false
            | Some _ =>
                match listing with
                | ListThrows =>
                    Failure 500 (Some "Failed to fetch campaigns") false
                | ApiError message => Failure 400 message false
                | Listed data =>
                    let campaigns :=
                      match data with Some l => l | None => [] end in
                    let records :=
                      campaignsWithInsights status campaigns insights in
                    match account with
                    | AccountThrows =>
                        Failure 500 (Some "Failed to fetch campaigns") false
                    | Account currency =>
                        Success records (or_str currency "USD")
                          (List.length records)
                    end
                end
            end
        end
    end.

End CampaignsGET.

(** ** The accounts route *)

Module AccountsRoute.
Import JS.

(** One entry of [ad_accounts], as the platform gave it. *)
Record RawAccount : Type := {
  id : string;
  name : option string;
  currency : option string;
  account_status : option number
}.

Record Account : Type := {
  acc_id : string;
  acc_name : string;
  acc_currency : option string
}.

(** What the lookups of the route come to. *)
Inductive Lookup : Type :=
  | LookupThrows
  | NoUser
  | NoConnection
  | Connection (ad_accounts : option (list RawAccount)).

Record Reply : Type := {
  status : Z;
  success : bool;
  accounts : option (list Account);
  needsConnection : bool;
  error : option string
}.

(** [acc.account_status === 1]. *)
Definition isActive (acc : RawAccount) : bool :=
  match account_status acc with
  | Some n => eqb n (of_Z 1)
  | None => false
  end.

Definition toAccount (acc : RawAccount) : Account :=
  {| acc_id := id acc;
     acc_name := or_str (name acc) (id acc);
     acc_currency := currency acc |}.

Definition GET (l : Lookup) : Reply :=
  match l with
  | LookupThrows =>
      {| status := 500; success := false; accounts := None;
         needsConnection := false;
         error := Some "Failed to fetch accounts" |}
  | NoUser =>
      {| status := 401; success := false; accounts := None;
         needsConnection := false; error := Some "Not authenticated" |}
  | NoConnection =>
      {| status := 200; success := false; accounts := Some [];
         needsConnection := true; error := None |}
  | Connection ad_accounts =>
      {| status := 200; success := true;
         accounts :=
           Some (map toAccount
                   (filter isActive
                      (match ad_accounts with Some l => l | None => [] end)));
         needsConnection := false; error := None |}
  end.

End AccountsRoute.

(** ** The Shopify orders route: summary and order list *)

Module ShopifyOrders.
Import JS.

Record Order : Type := {
  name : option string;
  created_at : option string;
  total_price : option string;
  financial_status : option string;
  source_name : option string
}.

Definition isPaid (o : Order) : bool :=
  match financial_status o with
  | Some s => CampaignsRoute.includes ["paid"; "partially_paid"] s
  | None => false
  end.

(** [(orders || []).filter(...)]. *)
Definition paidOrders (orders : option (list Order)) : list Order :=
  filter isPaid (match orders with Some l => l | None => [] end).

(** [parseFloat(o.total_price || '0')]. *)
Definition price (o : Order) : number :=
  parseFloat (or_str (total_price o) "0").

Definition totalRevenue (paid : list Order) : number :=
  fold_left (fun sum o => add sum (price o)) paid zero.

Definition totalOrders (paid : list Order) : nat := List.length paid.

Definition avgOrderValue (paid : list Order) : number :=
  if (0 <? totalOrders paid)%nat
  then div (totalRevenue paid) (of_Z (Z.of_nat (totalOrders paid)))
  else zero.


(** One entry of the [orders] array of the reply. *)
Record Entry : Type := {
  id : option string;
  date : option string;
  total : number;
  status : option string;
  source : option string
}.

Definition entry (o : Order) : Entry :=
  {| id := name o;
     date := option_map (substring 0 10) (created_at o);
     total := price o;
     status := financial_status o;
     source := source_name o |}.

(** [paidOrders.slice(0, 50).map(...)]. *)
Definition orders (paid : list Order) : list Entry :=
  map entry (firstn 50 paid).

End ShopifyOrders.

(** ** The account context the chat route puts in the system prompt *)

Module ChatContext.
Import JS.

Definition totalSpend (campaigns : list Campaign.t) : number :=
  fold_left (fun sum c => add sum (or_num (Campaign.spend c) zero))
    campaigns zero.

Definition totalRevenue (campaigns : list Campaign.t) : number :=
  fold_left (fun sum c => add sum (or_num (Campaign.revenue c) zero))
    campaigns zero.

Definition totalPurchases (campaigns : list Campaign.t) : number :=
  fold_left (fun sum c => add sum (or_num (Campaign.purchases c) zero))
    campaigns zero.

Definition totalATC (campaigns : list Campaign.t) : number :=
  fold_left (fun sum c => add sum (or_num (Campaign.addToCart c) zero))
    campaigns zero.

Definition totalIC (campaigns : list Campaign.t) : number :=
  fold_left (fun sum c => add sum (or_num (Campaign.initiateCheckout c) zero))
    campaigns zero.

Definition activeCampaigns (campaigns : list Campaign.t) : nat :=
  List.length
    (filter (fun c => String.eqb (Campaign.status c) "ACTIVE") campaigns).

End ChatContext.

(** ** The dashboard: badges, colours and loaders *)

Module DashboardView.
Import JS Dashboard.

Definition Health_eqb (a b : Health) : bool :=
  match a, b with
  | green, green | yellow, yellow | red, red | gray, gray => true
  | _, _ => false
  end.

(** The object [healthCounts]: a key is missing until its first
    campaign. *)
Definition Tally : Type := Health -> option number.

Definition noTally : Tally := fun _ => None.

(** [acc[h] = (acc[h] || 0) + 1]. *)
Definition bump (acc : Tally) (h : Health) : Tally :=
  fun k =>
    if Health_eqb k h
    then Some (add (match acc h with
                    | Some n => or_num n zero
                    | None => zero
                    end) one)
    else acc k.

Definition healthCounts (filtered : list Campaign.t) : Tally :=
  fold_left (fun acc c => bump acc (getCampaignHealth c)) filtered noTally.

(** [count > 0] where [count] is a key of [healthCounts] that may be
    missing: [undefined > 0] is false. *)
Definition above0 (count : option number) : bool :=
  match count with
  | Some n => gtb n zero
  | None => false
  end.

(** The badges beside the status filters, in the order of the page: none
    when [filteredCampaigns] is empty; otherwise one for green, one for
    yellow and one for red, each under its own test
    [healthCounts.green > 0], [healthCounts.yellow > 0],
    [healthCounts.red > 0].  The page has no badge for gray. *)
Definition badges (filtered : list Campaign.t) : list Health :=
  match filtered with
  | [] => []
  | _ :: _ =>
      let counts := healthCounts filtered in
      ((if above0 (counts green) then [green] else [])
       ++ (if above0 (counts yellow) then [yellow] else [])
       ++ (if above0 (counts red) then [red] else []))%list
  end.

Definition getRoasColor (roas : number) : string :=
  if geb roas two then "text-emerald-600"
  else if geb roas one then "text-amber-600"
  else "text-red-600".

Definition getCtrColor (ctr : number) : string :=
  if geb ctr lit_1_5 then "text-emerald-600"
  else if geb ctr lit_0_8 then "text-amber-600"
  else "text-red-500".

(** The class of the frequency cell of the table. *)
Definition frequencyColor (frequency : number) : string :=
  if gtb frequency three then "text-red-600" else "text-slate-500".

(** The number of campaigns of a list with a given health. *)
Definition countHealth (h : Health) (l : list Campaign.t) : Z :=
  Z.of_nat
    (List.length (filter (fun c => Health_eqb (getCampaignHealth c) h) l)).

(** The entry of [healthCounts] that stands for a count: no key for 0. *)
Definition tallyOf (n : Z) : option number :=
  if n =? 0 then None else Some (of_Z n).

(** The part of the component state the loaders write. *)
Record State : Type := {
  campaigns : list Campaign.t;
  accounts : list AccountsRoute.Account;
  selectedAccount : string;
  currency : string;
  loading : bool;
  needsConnection : bool;
  error : option string
}.

Definition setAccounts (st : State) (l : list AccountsRoute.Account)
    (selected : string) : State :=
  {| campaigns := campaigns st; accounts := l; selectedAccount := selected;
     currency := currency st; loading := loading st;
     needsConnection := false; error := error st |}.

Definition setNeedsConnection (st : State) : State :=
  {| campaigns := campaigns st; accounts := accounts st;
     selectedAccount := selectedAccount st; currency := currency st;
     loading := loading st; needsConnection := true; error := error st |}.

Definition setLoading (st : State) (b : bool) : State :=
  {| campaigns := campaigns st; accounts := accounts st;
     selectedAccount := selectedAccount st; currency := currency st;
     loading := b; needsConnection := needsConnection st;
     error := error st |}.

Definition setError (st : State) (e : option string) : State :=
  {| campaigns := campaigns st; accounts := accounts st;
     selectedAccount := selectedAccount st; currency := currency st;
     loading := loading st; needsConnection := needsConnection st;
     error := e |}.

Definition setCampaigns (st : State) (data : list Campaign.t)
    (cur : string) : State :=
  {| campaigns := data; accounts := accounts st;
     selectedAccount := selectedAccount st; currency := cur;
     loading := loading st; needsConnection := needsConnection st;
     error := error st |}.

(** [loadAccounts]; [reply] is [None] when [fetch] or [response.json()]
    throws. *)
Definition loadAccounts (st : State) (reply : option AccountsRoute.Reply)
    : State :=
  match reply with
  | None => setLoading (setNeedsConnection st) false
  | Some data =>
      if AccountsRoute.needsConnection data
      then setLoading (setNeedsConnection st) false
      else if AccountsRoute.success data
      then
        match AccountsRoute.accounts data with
        | Some (first :: others) =>
            setLoading
              (setAccounts st (first :: others) (AccountsRoute.acc_id first))
              false
        | Some [] | None => setLoading (setNeedsConnection st) false
        end
      else setLoading (setNeedsConnection st) false
  end.

(** [loadCampaigns]; [reply] is [None] when [fetch] or [response.json()]
    throws. *)
Definition loadCampaigns (st : State) (reply : option CampaignsGET.Reply)
    : State :=
  let st := setError (setLoading st true) None in
  let st :=
    match reply with
    | None => setError st (Some "Error cargando campañas")
    | Some (CampaignsGET.Success data cur _) =>
        setCampaigns st data (or_str (Some cur) "USD")
    | Some (CampaignsGET.Failure _ e true) => setNeedsConnection st
    | Some (CampaignsGET.Failure _ e false) => setError st e
    end in
  setLoading st false.

End DashboardView.

(** ** The text the chat shows *)

Module ChatView.
Import JS ChatClient.

(** The content of the assistant message after the updates of [log]; it
    starts empty. *)
Definition contentOf (log : list Update) : string :=
  match last log (ShowText "") with
  | ShowText fullText => fullText
  | ShowError content => content
  end.

End ChatView.

(** ** [renderMarkdown] *)

Module Markdown.
Import JS.

Inductive Inline : Type :=
  | Strong (text : string)
  | Span (text : string).

Inductive Block : Type :=
  | H3 (text : string)
  | H2 (text : string)
  | H1 (text : string)
  | Hr
  | BoldBullet (bold rest : string)
  | Bullet (text : string)
  | Spacer
  | Paragraph (parts : list Inline).

Definition isNewline (c : ascii) : bool := N.eqb (N_of_ascii c) 10.

(** What [.] of a regular expression does not match: the line
    terminators LF, CR, U+2028 and U+2029.  A text is held as its UTF-8
    bytes, as a string literal is, where the last two are the bytes
    226 128 168 and 226 128 169.  [lineTerminatorAt s]: one of the four
    starts [s]. *)
Definition lineTerminatorAt (s : string) : bool :=
  match s with
  | String c rest =>
      (N.eqb (N_of_ascii c) 10 || N.eqb (N_of_ascii c) 13
       || (N.eqb (N_of_ascii c) 226
           && match rest with
              | String c2 (String c3 _) =>
                  N.eqb (N_of_ascii c2) 128
                  && (N.eqb (N_of_ascii c3) 168 || N.eqb (N_of_ascii c3) 169)
              | _ => false
              end))%bool
  | EmptyString => false
  end.

(** [text.split('\n')]. *)
Fixpoint splitLines (text : string) : list string :=
  match text with
  | EmptyString => [EmptyString]
  | String c rest =>
      if isNewline c then EmptyString :: splitLines rest
      else
        match splitLines rest with
        | line :: lines => String c line :: lines
        | [] => [String c EmptyString]
        end
  end.

(** [s.slice(n)]. *)
Fixpoint slice (n : nat) (s : string) : string :=
  match n, s with
  | S k, String _ rest => slice k rest
  | _, _ => s
  end.

(** [s.slice(2, -2)]. *)
Definition inner (s : string) : string :=
  substring 2 (String.length s - 4) s.

Definition endsWith (s suffix : string) : bool :=
  (String.length suffix <=? String.length s)%nat
  && String.eqb
       (substring (String.length s - String.length suffix)
          (String.length suffix) s)
       suffix.

(** The longest prefix of characters that [.] matches: the second,
    greedy group of the bullet pattern. *)
Fixpoint dots (s : string) : string :=
  match s with
  | String c rest => if lineTerminatorAt s then EmptyString
                     else String c (dots rest)
  | EmptyString => EmptyString
  end.

(** The first, lazy group of the bullet pattern once its first character
    is taken: the shortest run of [.] up to two stars, and what follows
    the two stars. *)
Fixpoint untilStars (s : string) : option (string * string) :=
  match s with
  | String "*" (String "*" rest) => Some (EmptyString, rest)
  | String c rest =>
      if lineTerminatorAt s then None
      else
        match untilStars rest with
        | Some (group, after) => Some (String c group, after)
        | None => None
        end
  | EmptyString => None
  end.

(** [line.match] with the bullet pattern (dash, space, two stars, a lazy
    group of one or more [.], two stars, a greedy group of [.]) on a line
    that starts with dash, space, two stars: the two groups. *)
Definition matchBoldBullet (line : string) : option (string * string) :=
  match slice 4 line with
  | String c rest =>
      if lineTerminatorAt (String c rest) then None
      else
        match untilStars rest with
        | Some (group, after) => Some (String c group, dots after)
        | None => None
        end
  | EmptyString => None
  end.

(** The longest prefix without a star, and what follows it. *)
Fixpoint noStars (s : string) : string * string :=
  match s with
  | String c rest =>
      if Ascii.eqb c "*" then (EmptyString, s)
      else let '(run, after) := noStars rest in (String c run, after)
  | EmptyString => (EmptyString, s)
  end.

(** A match of the bold pattern (two stars, one or more characters that
    are not stars, two stars) at the head of [s]: the text between the
    stars and what follows the match. *)
Definition boldAt (s : string) : option (string * string) :=
  match s with
  | String "*" (String "*" rest) =>
      match noStars rest with
      | (String c run, String "*" (String "*" after)) =>
          Some (String c run, after)
      | _ => None
      end
  | _ => None
  end.

(** [line.split] on the bold pattern, kept as a group, from a position
    on: [text] is what was read since the last match.  [fuel] bounds the
    positions tried; the length of the string is enough. *)
Fixpoint splitFrom (fuel : nat) (s : string) (text : string) : list string :=
  match fuel with
  | O => [text ++ s]
  | S fuel' =>
      match boldAt s with
      | Some (run, after) =>
          text :: ("**" ++ run ++ "**") :: splitFrom fuel' after EmptyString
      | None =>
          match s with
          | String c rest =>
              splitFrom fuel' rest (text ++ String c EmptyString)
          | EmptyString => [text]
          end
      end
  end.

Definition splitBold (line : string) : list string :=
  splitFrom (String.length line) line EmptyString.

Definition renderPart (part : string) : Inline :=
  if prefix "**" part && endsWith part "**" then Strong (inner part)
  else Span part.

Definition renderLine (line : string) : Block :=
  if prefix "### " line then H3 (slice 4 line)
  else if prefix "## " line then H2 (slice 3 line)
  else if prefix "# " line then H1 (slice 2 line)
  else if prefix "---" line then Hr
  else
    match (if prefix "- **" line then matchBoldBullet line else None) with
    | Some (bold, rest) => BoldBullet bold rest
    | None =>
        if prefix "- " line then Bullet (slice 2 line)
        else if String.eqb (trimStart line) EmptyString then Spacer
        else Paragraph (map renderPart (splitBold line))
    end.

Definition renderMarkdown (text : string) : list Block :=
  map renderLine (splitLines text).

(** The number of newline code units of a text. *)
Fixpoint newlines (text : string) : nat :=
  match text with
  | String c rest => ((if isNewline c then 1 else 0) + newlines rest)%nat
  | EmptyString => O
  end.

(** A string without a line terminator. *)
Fixpoint noBreak (s : string) : bool :=
  match s with
  | String c rest => negb (lineTerminatorAt s) && noBreak rest
  | EmptyString => true
  end.

(** A string without a star. *)
Fixpoint starFree (s : string) : bool :=
  match s with
  | String c rest => negb (Ascii.eqb c "*") && starFree rest
  | EmptyString => true
  end.

End Markdown.

(** * Properties *)

(** ** Exact addition of counts

    Two non-negative integers whose sum is below 2^53 add without
    rounding.  The proof follows [SFadd]: both mantissas are aligned on
    the smaller exponent, added as integers, and [binary_round] brings the
    sum back to its canonical form by a shift that loses no bit. *)

Section ExactAddition.
Import JS Count.

Lemma iter_pos_nat {A : Type} (f : A -> A) (p : positive) (x : A) :
  iter_pos f p x = Nat.iter (Pos.to_nat p) f x.
Proof.
  revert x; induction p as [p IH | p IH |]; intro x; cbn [iter_pos].
  - rewrite !IH, Pos2Nat.inj_xI.
    replace (S (2 * Pos.to_nat p))%nat
      with (Pos.to_nat p + (Pos.to_nat p + 1))%nat by lia.
    rewrite !Nat.iter_add. reflexivity.
  - rewrite !IH, Pos2Nat.inj_xO.
    replace (2 * Pos.to_nat p)%nat with (Pos.to_nat p + Pos.to_nat p)%nat by lia.
    rewrite Nat.iter_add. reflexivity.
  - reflexivity.
Qed.

Lemma Pos_iter_shl (m d : positive) : Pos.iter xO m d = shl m (Pos.to_nat d).
Proof. unfold shl. apply Pos2Nat.inj_iter. Qed.

Lemma shl_shl (m : positive) (a b : nat) : shl (shl m a) b = shl m (a + b).
Proof. unfold shl. rewrite Nat.add_comm. symmetry. apply Nat.iter_add. Qed.

Lemma Zpos_shl (m : positive) (n : nat) :
  Zpos (shl m n) = Zpos m * 2 ^ Z.of_nat n.
Proof.
  induction n as [|n IH].
  - cbn. lia.
  - change (shl m (S n)) with (xO (shl m n)).
    rewrite Pos2Z.inj_xO, IH, Nat2Z.inj_succ, Z.pow_succ_r by lia. ring.
Qed.

Lemma digits_shl (m : positive) (n : nat) :
  Zpos (digits2_pos (shl m n)) = Zpos (digits2_pos m) + Z.of_nat n.
Proof.
  induction n as [|n IH].
  - cbn. lia.
  - change (shl m (S n)) with (xO (shl m n)). cbn [digits2_pos].
    rewrite Pos2Z.inj_succ, IH. lia.
Qed.

(** Shifting right the bits that [shl] appended leaves no round or
    sticky bit. *)
Lemma shr_1_shl (m : positive) (n : nat) :
  Nat.iter n shr_1 (Build_shr_record (Zpos (shl m n)) false false)
  = Build_shr_record (Zpos m) false false.
Proof.
  induction n as [|n IH].
  - reflexivity.
  - rewrite Nat.iter_succ_r. change (shl m (S n)) with (xO (shl m n)).
    cbn [shr_1 orb]. exact IH.
Qed.

Lemma digits_bound (p : positive) (n : Z) :
  Zpos p < 2 ^ n -> 0 <= n -> Zpos (digits2_pos p) <= n.
Proof.
  revert n. induction p as [p IH | p IH |]; intros n H Hn; cbn [digits2_pos].
  - rewrite Pos2Z.inj_succ.
    assert (n <> 0) by (intro; subst; cbn in H; lia).
    specialize (IH (n - 1)).
    replace n with (Z.succ (n - 1)) in H by lia.
    rewrite Z.pow_succ_r in H by lia. lia.
  - rewrite Pos2Z.inj_succ.
    assert (n <> 0) by (intro; subst; cbn in H; lia).
    specialize (IH (n - 1)).
    replace n with (Z.succ (n - 1)) in H by lia.
    rewrite Z.pow_succ_r in H by lia. lia.
  - assert (n <> 0) by (intro; subst; cbn in H; lia). lia.
Qed.

(** A mantissa of exactly 53 bits with an exponent in range is left as
    it is. *)
Lemma round_canonical (s : bool) (m : positive) (e : Z) :
  Zpos (digits2_pos m) = prec -> emin prec emax <= e -> e <= emax - prec ->
  binary_round_aux prec emax s (Zpos m) e loc_Exact = S754_finite s m e.
Proof.
  intros Hd Hlo Hhi.
  assert (Hshift : fexp prec emax (Zdigits2 (Zpos m) + e) - e = 0).
  { cbn [Zdigits2]. rewrite Hd. unfold fexp. lia. }
  unfold binary_round_aux, shr_fexp.
  rewrite Hshift.
  cbn [shr_record_of_loc shr shr_m loc_of_shr_record round_nearest_even].
  rewrite Hshift. cbn [shr_record_of_loc shr shr_m].
  apply Z.leb_le in Hhi. rewrite Hhi. reflexivity.
Qed.

Lemma binary_round_shl (s : bool) (n : positive) (k : nat) :
  Zpos (digits2_pos n) <= prec ->
  binary_round prec emax s (shl n k) (- Z.of_nat k) = canon s n.
Proof.
  intro Hd. unfold binary_round, canon.
  set (d := Zpos (digits2_pos n)) in *.
  assert (Hd1 : 1 <= d) by (unfold d; lia).
  assert (Hfe : fexp prec emax (Zpos (digits2_pos (shl n k)) + - Z.of_nat k)
                = d - prec).
  { rewrite digits_shl. fold d. unfold fexp, emin, prec, emax in *. lia. }
  rewrite Hfe. unfold shl_align.
  destruct (d - prec - - Z.of_nat k) as [|t|t] eqn:Ht.
  - (* exactly 53 bits already *)
    assert (Hk : k = Z.to_nat (prec - d)) by lia.
    rewrite <- Hk. replace (d - prec) with (- Z.of_nat k) by lia.
    apply round_canonical.
    + rewrite digits_shl. fold d. lia.
    + unfold emin, prec, emax in *. lia.
    + unfold prec, emax in *. lia.
  - (* more than 53 bits: the low [t] bits are shifted out, all zero *)
    unfold binary_round_aux, shr_fexp at 1.
    assert (Hsh : fexp prec emax (Zdigits2 (Zpos (shl n k)) + - Z.of_nat k)
                  - - Z.of_nat k = Zpos t).
    { cbn [Zdigits2]. rewrite Hfe. exact Ht. }
    rewrite Hsh. cbn [shr_record_of_loc shr].
    assert (Hit :
      iter_pos shr_1 t (Build_shr_record (Zpos (shl n k)) false false)
      = Build_shr_record (Zpos (shl n (Z.to_nat (prec - d)))) false false).
    { rewrite iter_pos_nat.
      replace k with (Z.to_nat (prec - d) + Pos.to_nat t)%nat by lia.
      rewrite <- shl_shl. apply shr_1_shl. }
    rewrite Hit.
    cbn [shr_m loc_of_shr_record round_nearest_even].
    replace (- Z.of_nat k + Zpos t) with (d - prec) by lia.
    assert (Hshift :
      fexp prec emax
        (Zdigits2 (Zpos (shl n (Z.to_nat (prec - d)))) + (d - prec))
      - (d - prec) = 0).
    { cbn [Zdigits2]. rewrite digits_shl. fold d.
      unfold fexp, emin, prec, emax in *. lia. }
    unfold shr_fexp. rewrite Hshift. cbn [shr_record_of_loc shr shr_m].
    assert (Hhi : (d - prec <=? emax - prec) = true)
      by (apply Z.leb_le; unfold prec, emax in *; lia).
    rewrite Hhi. reflexivity.
  - (* fewer than 53 bits: zero bits are appended *)
    rewrite Pos_iter_shl, shl_shl.
    assert (Hk : (k + Pos.to_nat t = Z.to_nat (prec - d))%nat) by lia.
    rewrite Hk. apply round_canonical.
    + rewrite digits_shl. fold d. lia.
    + unfold emin, prec, emax in *. lia.
    + unfold prec, emax in *. lia.
Qed.

Lemma of_Z_pos (n : positive) :
  Zpos (digits2_pos n) <= prec -> of_Z (Zpos n) = canon false n.
Proof. intro H. exact (binary_round_shl false n 0 H). Qed.

Lemma add_canon (a b : positive) :
  Zpos a + Zpos b < 2 ^ prec ->
  add (canon false a) (canon false b) = canon false (a + b).
Proof.
  intro H.
  assert (Ha : Zpos (digits2_pos a) <= prec)
    by (apply digits_bound; unfold prec in *; lia).
  assert (Hb : Zpos (digits2_pos b) <= prec)
    by (apply digits_bound; unfold prec in *; lia).
  assert (Hab : Zpos (digits2_pos (a + b)) <= prec)
    by (apply digits_bound; unfold prec in *; lia).
  unfold add, canon at 1 2. cbn [SFadd cond_Zopp].
  set (da := Zpos (digits2_pos a)) in *. set (db := Zpos (digits2_pos b)) in *.
  set (ka := Z.to_nat (prec - da)). set (kb := Z.to_nat (prec - db)).
  set (ez := Z.min (da - prec) (db - prec)).
  set (K := Nat.max ka kb).
  assert (HK : ez = - Z.of_nat K) by lia.
  assert (Hfa : fst (shl_align (shl a ka) (da - prec) ez) = shl a K).
  { unfold shl_align. destruct (ez - (da - prec)) as [|t|t] eqn:Ht; cbn [fst].
    - f_equal. lia.
    - lia.
    - rewrite Pos_iter_shl, shl_shl. f_equal. lia. }
  assert (Hfb : fst (shl_align (shl b kb) (db - prec) ez) = shl b K).
  { unfold shl_align. destruct (ez - (db - prec)) as [|t|t] eqn:Ht; cbn [fst].
    - f_equal. lia.
    - lia.
    - rewrite Pos_iter_shl, shl_shl. f_equal. lia. }
  rewrite Hfa, Hfb.
  replace (Zpos (shl a K) + Zpos (shl b K)) with (Zpos (shl (a + b) K))
    by (rewrite !Zpos_shl, Pos2Z.inj_add; ring).
  cbn [binary_normalize]. rewrite HK. apply binary_round_shl. exact Hab.
Qed.

Lemma add_of_Z (a b : Z) :
  0 <= a -> 0 <= b -> a + b < 2 ^ prec -> add (of_Z a) (of_Z b) = of_Z (a + b).
Proof.
  intros Ha Hb H.
  destruct a as [|a|a]; [| |lia]; destruct b as [|b|b]; try lia.
  - reflexivity.
  - cbn [Z.add]. rewrite of_Z_pos by (apply digits_bound; unfold prec in *; lia).
    reflexivity.
  - rewrite Z.add_0_r, of_Z_pos by (apply digits_bound; unfold prec in *; lia).
    reflexivity.
  - rewrite !of_Z_pos by (apply digits_bound; unfold prec in *; lia).
    rewrite add_canon by exact H.
    symmetry. apply (of_Z_pos (a + b)).
    apply digits_bound; unfold prec in *; lia.
Qed.

End ExactAddition.

(** ** Health classification *)

Section Classification.
Import JS Dashboard.

(** The number literals of the classifier are the values the decimal
    literals of the specification denote. *)
Lemma thresholds :
  two = of_decimal false 20 (-1) /\ lit_1_5 = of_decimal false 15 (-1)
  /\ three = of_decimal false 30 (-1) /\ one = of_decimal false 10 (-1)
  /\ lit_0_8 = of_decimal false 8 (-1) /\ five = of_decimal false 50 (-1).
Proof. repeat split; vm_compute; reflexivity. Qed.

(** C1.  [getCampaignHealth] returns, for every record, exactly one health
    state, the one the top-to-bottom first-match rule chain of the
    specification gives: gray when spend and impressions are both 0, else
    green when roas >= 2.0, ctr >= 1.5 and frequency <= 3.0, else red when
    roas < 1.0 or ctr < 0.8 or frequency > 5.0, else yellow.  A record with
    spend 0 and impressions 0 is gray whatever its other fields are. *)
Theorem getCampaignHealth_rule_chain (m : Campaign.t) :
  getCampaignHealth m = Spec.classify m
  /\ (exists! h, getCampaignHealth m = h)
  /\ (eqb (Campaign.spend m) zero = true ->
      eqb (Campaign.impressions m) zero = true ->
      getCampaignHealth m = gray).
Proof.
  destruct thresholds as (E2 & E15 & E3 & E1 & E08 & E5).
  split; [|split].
  - unfold getCampaignHealth, Spec.classify, Spec.rules.
    cbn [Spec.firstMatch]. unfold Spec.dormant, Spec.scalable, Spec.flagged.
    rewrite <- E2, <- E15, <- E3, <- E1, <- E08, <- E5. reflexivity.
  - exists (getCampaignHealth m). split; [reflexivity | auto].
  - intros Hs Hi. unfold getCampaignHealth. rewrite Hs, Hi. reflexivity.
Qed.

Lemma getCampaignHealth_rule_chain_witness :
  getCampaignHealth
    (Campaign.mk "dormant" "ACTIVE" (S754_zero true) zero NaN
       (S754_infinity false) zero zero zero zero NaN) = gray.
Proof.
  apply (getCampaignHealth_rule_chain
           (Campaign.mk "dormant" "ACTIVE" (S754_zero true) zero NaN
              (S754_infinity false) zero zero zero zero NaN));
    reflexivity.
Defined.

(** C10.  Two records that agree on spend, impressions, roas, ctr and
    frequency get the same health state, whatever their name, status,
    revenue, purchases, addToCart and initiateCheckout are. *)
Theorem getCampaignHealth_reads_five_fields (a b : Campaign.t) :
  Campaign.spend a = Campaign.spend b ->
  Campaign.impressions a = Campaign.impressions b ->
  Campaign.roas a = Campaign.roas b ->
  Campaign.ctr a = Campaign.ctr b ->
  Campaign.frequency a = Campaign.frequency b ->
  getCampaignHealth a = getCampaignHealth b.
Proof.
  intros Hs Hi Hr Hc Hf. unfold getCampaignHealth.
  rewrite Hs, Hi, Hr, Hc, Hf. reflexivity.
Qed.

Lemma getCampaignHealth_reads_five_fields_witness :
  getCampaignHealth
    (Campaign.mk "a" "ACTIVE" (of_Z 100) (of_Z 1000) (of_Z 2) one
       (of_Z 12) (of_Z 30) (of_Z 20) (of_Z 250) lit_1_5)
  = getCampaignHealth
      (Campaign.mk "b" "PAUSED" (of_Z 100) (of_Z 1000) (of_Z 2) one
         zero NaN (of_Z 7) (of_Z 1) lit_1_5).
Proof.
  apply (getCampaignHealth_reads_five_fields
           (Campaign.mk "a" "ACTIVE" (of_Z 100) (of_Z 1000) (of_Z 2) one
              (of_Z 12) (of_Z 30) (of_Z 20) (of_Z 250) lit_1_5)
           (Campaign.mk "b" "PAUSED" (of_Z 100) (of_Z 1000) (of_Z 2) one
              zero NaN (of_Z 7) (of_Z 1) lit_1_5));
    reflexivity.
Defined.

End Classification.

(** ** Action extraction *)

Section Extraction.
Import JS CampaignsRoute Spec.

(** The scan returns the parsed value of the first matching action. *)
Lemma scan_find (parse : string -> number) (actionTypes : list string)
    (actions : list RawAction.t) :
  scan parse actionTypes actions
  = match find (matches actionTypes) actions with
    | Some action => parse (or_str (RawAction.value action) "0")
    | None => zero
    end.
Proof.
  induction actions as [|action rest IH]; cbn [scan find].
  - reflexivity.
  - unfold matches at 1. destruct (includes _ _); [reflexivity | exact IH].
Qed.

Lemma find_skip (actionTypes : list string) (before after : list RawAction.t) :
  (forall a, In a before -> matches actionTypes a = false) ->
  find (matches actionTypes) (before ++ after)%list
  = find (matches actionTypes) after.
Proof.
  intro H. induction before as [|x before IH]; cbn [app find].
  - reflexivity.
  - rewrite (H x (or_introl eq_refl)). apply IH.
    intros a Ha. apply H. right. exact Ha.
Qed.

Lemma extractPurchases_extractAction (actions : option (list RawAction.t)) :
  extractPurchases actions = extractAction actions purchaseTypes.
Proof. reflexivity. Qed.

(** C5.  For every set of action types, [extractAction] returns 0 when the
    action list is absent, empty, or has no action of one of the types;
    otherwise it returns the parsed value of the first action of the list
    whose type is one of them.  With the purchase types,
    [{action_type: "purchase", value: "12"}] gives 12. *)
Theorem extractAction_first_match (actionTypes : list string) :
  extractAction None actionTypes = zero
  /\ extractAction (Some []) actionTypes = zero
  /\ (forall actions,
        (forall a, In a actions ->
           includes actionTypes (RawAction.action_type a) = false) ->
        extractAction (Some actions) actionTypes = zero)
  /\ (forall before action after,
        (forall a, In a before ->
           includes actionTypes (RawAction.action_type a) = false) ->
        includes actionTypes (RawAction.action_type action) = true ->
        extractAction (Some (before ++ action :: after)%list) actionTypes
        = parseInt (or_str (RawAction.value action) "0"))
  /\ extractAction (Some [RawAction.mk "purchase" (Some "12")]) purchaseTypes
     = of_Z 12
  /\ extractPurchases (Some [RawAction.mk "purchase" (Some "12")]) = of_Z 12.
Proof.
  repeat split.
  - intros actions H. cbn [extractAction]. rewrite scan_find.
    rewrite <- (app_nil_r actions), (find_skip actionTypes actions [] H).
    reflexivity.
  - intros before action after Hb Ha. cbn [extractAction].
    rewrite scan_find, (find_skip actionTypes before _ Hb). cbn [find].
    unfold matches. rewrite Ha. reflexivity.
Qed.

Lemma extractAction_first_match_witness :
  extractAction
    (Some ([RawAction.mk "link_click" (Some "40")]
           ++ RawAction.mk "add_to_cart" (Some "9")
           :: [RawAction.mk "omni_add_to_cart" (Some "3")])%list)
    addToCartTypes
  = parseInt "9"
  /\ extractAction (Some [RawAction.mk "link_click" (Some "40")])
       addToCartTypes = zero.
Proof.
  destruct (extractAction_first_match addToCartTypes) as (_ & _ & H0 & H1 & _).
  split.
  - apply (H1 [RawAction.mk "link_click" (Some "40")]
              (RawAction.mk "add_to_cart" (Some "9"))
              [RawAction.mk "omni_add_to_cart" (Some "3")]).
    + intros a [<- | []]. reflexivity.
    + reflexivity.
  - apply (H0 [RawAction.mk "link_click" (Some "40")]).
    intros a [<- | []]. reflexivity.
Defined.

(** C6, as stated, fails: with [purchase] before [omni_purchase] in the
    action list, the value of [purchase] is returned, although
    [omni_purchase] comes first among the purchase types. *)
Lemma synonym_order_counterexample :
  let earlier := RawAction.mk "omni_purchase" (Some "7") in
  let later := RawAction.mk "purchase" (Some "5") in
  (position (RawAction.action_type earlier) purchaseTypes
   < position (RawAction.action_type later) purchaseTypes)%nat
  /\ includes purchaseTypes (RawAction.action_type earlier) = true
  /\ includes purchaseTypes (RawAction.action_type later) = true
  /\ extractAction (Some [later; earlier]) purchaseTypes = parseInt "5"
  /\ extractPurchases (Some [later; earlier]) = parseInt "5"
  /\ extractAction (Some [later; earlier]) purchaseTypes <> parseInt "7".
Proof.
  cbv beta zeta. repeat split.
  - cbn. lia.
  - vm_compute. discriminate.
Qed.

(** C6, amended.  When two actions of the list have types among
    [actionTypes], the value of the one that comes first in the action
    list is returned (no earlier action matching), wherever the two types
    stand among [actionTypes]. *)
Theorem extractAction_list_order (actionTypes : list string)
    (before between after : list RawAction.t) (a b : RawAction.t) :
  (forall x, In x before ->
     includes actionTypes (RawAction.action_type x) = false) ->
  includes actionTypes (RawAction.action_type a) = true ->
  includes actionTypes (RawAction.action_type b) = true ->
  extractAction (Some (before ++ a :: between ++ b :: after)%list) actionTypes
  = parseInt (or_str (RawAction.value a) "0")
  /\ extractPurchases (Some (a :: between ++ b :: after)%list)
     = extractAction (Some (a :: between ++ b :: after)%list) purchaseTypes.
Proof.
  intros Hb Ha _. split; [|reflexivity].
  cbn [extractAction]. rewrite scan_find, (find_skip actionTypes before _ Hb).
  cbn [find]. unfold matches. rewrite Ha. reflexivity.
Qed.

Lemma extractAction_list_order_witness :
  extractAction
    (Some ([] ++ RawAction.mk "purchase" (Some "5")
           :: [] ++ RawAction.mk "omni_purchase" (Some "7") :: [])%list)
    purchaseTypes
  = parseInt "5".
Proof.
  apply (extractAction_list_order purchaseTypes [] [] []
           (RawAction.mk "purchase" (Some "5"))
           (RawAction.mk "omni_purchase" (Some "7"))).
  - intros x [].
  - reflexivity.
  - reflexivity.
Defined.

End Extraction.

(** ** Normalization *)

Section Normalization.
Import JS CampaignsRoute Spec.

(** C3.  Whatever the descriptor, when the insights are absent (the
    request threw, or the reply has no first row) normalization returns a
    record with the name and the status of the descriptor and the nine
    numeric fields at 0. *)
Theorem normalize_absent_insights (campaign : Descriptor.t)
    (data : option (list Insights.t)) :
  let nothing :=
    Campaign.mk (Descriptor.name campaign) (Descriptor.status campaign)
      zero zero zero zero zero zero zero zero zero in
  normalize campaign Threw = nothing
  /\ normalize campaign (Replied None) = nothing
  /\ normalize campaign (Replied (Some [])) = nothing
  /\ (firstRow data = None -> normalize campaign (Replied data) = nothing).
Proof.
  cbn zeta. repeat split.
  intro H. cbn [normalize]. rewrite H. reflexivity.
Qed.

Lemma normalize_absent_insights_witness :
  normalize (Descriptor.mk "23850" "Spring sale" "PAUSED") (Replied (Some []))
  = Campaign.mk "Spring sale" "PAUSED"
      zero zero zero zero zero zero zero zero zero.
Proof.
  apply (normalize_absent_insights
           (Descriptor.mk "23850" "Spring sale" "PAUSED") (Some [])).
  reflexivity.
Defined.

(** A rounded quotient or sum with a positive sign is not below 0. *)
Lemma round_aux_not_negative (m e : Z) (l : location) :
  ltb (binary_round_aux prec emax false m e l) zero = false.
Proof.
  unfold binary_round_aux.
  destruct (shr_fexp prec emax m e l) as [mrs' e'].
  destruct (shr_fexp prec emax _ e' loc_Exact) as [mrs'' e''].
  destruct (shr_m mrs'') as [|p|p]; [reflexivity | | reflexivity].
  destruct (Z.leb e'' (emax - prec)); reflexivity.
Qed.

Lemma div_not_negative (x y : number) :
  ltb x zero = false -> gtb y zero = true -> ltb (div x y) zero = false.
Proof.
  intros Hx Hy.
  destruct y as [sy|sy| |sy my ey]; try discriminate Hy;
    destruct sy; try discriminate Hy;
    destruct x as [sx|sx| |sx mx ex]; try reflexivity;
    destruct sx; try discriminate Hx; try reflexivity.
  unfold div, SFdiv.
  destruct (SFdiv_core_binary prec emax (Zpos mx) ex (Zpos my) ey)
    as [[mz ez] lz].
  apply round_aux_not_negative.
Qed.

Lemma eqb_zero_not_gtb (x : number) : eqb x zero = true -> gtb x zero = false.
Proof.
  destruct x as [s|s| |s m e]; try reflexivity; try discriminate;
    destruct s; discriminate.
Qed.

(** C2, as stated, fails: one unit of spend with a purchase value of -5
    gives a roas of -5, which is below 0. *)
Lemma roas_negative_counterexample :
  let row :=
    Insights.mk None (Some "1") None None None None
      (Some [RawAction.mk "purchase" (Some "-5")]) in
  let r := normalize (Descriptor.mk "1" "Promo" "ACTIVE")
             (Replied (Some [row])) in
  Campaign.roas r = S754_finite true 5629499534213120 (-50)
  /\ Campaign.roas r = parseFloat "-5"
  /\ ltb (Campaign.roas r) zero = true.
Proof. vm_compute. repeat split. Qed.

(** C2, amended.  In every record normalization returns, roas is
    revenue / spend when spend > 0 and 0 otherwise (spend 0, negative or
    NaN), so it is 0 when spend is 0; and roas is not below 0 whenever
    revenue is not below 0. *)
Theorem normalize_roas (campaign : Descriptor.t) (reply : InsightsReply) :
  let r := normalize campaign reply in
  Campaign.roas r
  = (if gtb (Campaign.spend r) zero
     then div (Campaign.revenue r) (Campaign.spend r) else zero)
  /\ (eqb (Campaign.spend r) zero = true -> Campaign.roas r = zero)
  /\ (ltb (Campaign.revenue r) zero = false ->
      ltb (Campaign.roas r) zero = false).
Proof.
  cbn zeta.
  assert (E : Campaign.roas (normalize campaign reply)
              = if gtb (Campaign.spend (normalize campaign reply)) zero
                then div (Campaign.revenue (normalize campaign reply))
                         (Campaign.spend (normalize campaign reply))
                else zero).
  { destruct reply as [|data]; [reflexivity|].
    cbn [normalize]. destruct (firstRow data); reflexivity. }
  split; [exact E | split].
  - intro H. rewrite E, (eqb_zero_not_gtb _ H). reflexivity.
  - intro H. rewrite E.
    destruct (gtb (Campaign.spend (normalize campaign reply)) zero) eqn:G.
    + apply div_not_negative; assumption.
    + reflexivity.
Qed.

Lemma normalize_roas_witness :
  let row :=
    Insights.mk None (Some "100") (Some "1000") (Some "2.0") (Some "1.5")
      (Some [RawAction.mk "purchase" (Some "12")])
      (Some [RawAction.mk "purchase" (Some "250")]) in
  let r := normalize (Descriptor.mk "1" "Promo" "ACTIVE")
             (Replied (Some [row])) in
  ltb (Campaign.roas r) zero = false
  /\ Campaign.roas
       (normalize (Descriptor.mk "1" "Promo" "ACTIVE") (Replied None)) = zero.
Proof.
  split.
  - apply (normalize_roas (Descriptor.mk "1" "Promo" "ACTIVE")
             (Replied (Some
                [Insights.mk None (Some "100") (Some "1000") (Some "2.0")
                   (Some "1.5")
                   (Some [RawAction.mk "purchase" (Some "12")])
                   (Some [RawAction.mk "purchase" (Some "250")])]))).
    reflexivity.
  - apply (normalize_roas (Descriptor.mk "1" "Promo" "ACTIVE") (Replied None)).
    reflexivity.
Defined.

Lemma or_str_missing (o : option string) (d : string) :
  missing o = true -> or_str o d = d.
Proof. destruct o as [[|c r]|]; [reflexivity | discriminate | reflexivity]. Qed.

(** What [trimStart] leaves does not start with white space. *)
Lemma trimStart_head (s : string) :
  trimStart s = EmptyString
  \/ exists b r, trimStart s = String b r /\ isWhiteSpace b = false.
Proof.
  induction s as [|c s IH]; [left; reflexivity|].
  cbn [trimStart]. destruct (isWhiteSpace c) eqn:W; [exact IH|].
  right. exists c, s. split; [reflexivity | exact W].
Qed.

Lemma trimStart_idem (s : string) : trimStart (trimStart s) = trimStart s.
Proof.
  destruct (trimStart_head s) as [E | (b & r & E & W)]; rewrite E.
  - reflexivity.
  - cbn [trimStart]. rewrite W. reflexivity.
Qed.

Lemma parseFloat_trimStart (s : string) :
  parseFloat (trimStart s) = parseFloat s.
Proof. unfold parseFloat. rewrite trimStart_idem. reflexivity. Qed.

Lemma parseInt_trimStart (s : string) : parseInt (trimStart s) = parseInt s.
Proof. unfold parseInt. rewrite trimStart_idem. reflexivity. Qed.

Lemma skipSpaces_trimStart (s : string) :
  skipSpaces (trimStart s) = skipSpaces s.
Proof.
  induction s as [|c s IH]; [reflexivity|].
  cbn [trimStart skipSpaces]. destruct (isWhiteSpace c) eqn:W; [exact IH|].
  cbn [skipSpaces]. rewrite W. reflexivity.
Qed.

Lemma skipSpaces_stays (b : ascii) (r : string) :
  isWhiteSpace b = false -> isLead b = false ->
  skipSpaces (String b r) = String b r.
Proof.
  intros W L. unfold isLead in L.
  repeat (apply orb_false_iff in L; destruct L as [L ?]).
  cbn [skipSpaces]. rewrite W.
  destruct r as [|b2 [|b3 r3]]; try reflexivity;
    unfold space2, space3; rewrite ?L, ?H, ?H0, ?H1, ?H2; reflexivity.
Qed.

Lemma lead_is_no_number (b : ascii) (r : string) :
  isLead b = true ->
  parseFloat (String b r) = NaN /\ parseInt (String b r) = NaN.
Proof.
  intro L.
  destruct b as [b0 b1 b2 b3 b4 b5 b6 b7].
  destruct b0, b1, b2, b3, b4, b5, b6, b7;
    try (vm_compute in L; discriminate L); split; reflexivity.
Qed.

Lemma not_digit (R : Z) (c : ascii) :
  (R = 10 /\ isDigit c = false) \/ (R = 16 /\ isHexDigit c = false) ->
  radixDigit R c = None.
Proof.
  intros [[-> H] | [-> H]];
    destruct c as [b0 b1 b2 b3 b4 b5 b6 b7];
    destruct b0, b1, b2, b3, b4, b5, b6, b7;
    try (vm_compute in H; discriminate H); reflexivity.
Qed.

(** With no decimal literal and no [Infinity] after the sign, [parseFloat]
    gives NaN. *)
Lemma parseFloat_no_prefix (t : string) :
  trimStart t = t ->
  startsDecimal (snd (stripSign t)) = false ->
  prefix "Infinity" (snd (stripSign t)) = false ->
  parseFloat t = NaN.
Proof.
  intros Ht Hd Hi. unfold parseFloat. rewrite Ht.
  destruct (stripSign t) as [neg u]. cbn [snd] in Hd, Hi. rewrite Hi.
  destruct u as [|c r]; [reflexivity|].
  cbn [startsDecimal] in Hd. apply orb_false_iff in Hd.
  destruct Hd as [Hc Hdot].
  cbn [spanDigits]. rewrite (not_digit 10 c) by (left; split; trivial).
  destruct (Ascii.eqb_spec c ".") as [E|N].
  - subst c. cbn [andb] in Hdot. destruct r as [|d r']; [reflexivity|].
    cbn [spanDigits]. rewrite (not_digit 10 d) by (left; split; trivial).
    reflexivity.
  - destruct c as [b0 b1 b2 b3 b4 b5 b6 b7].
    destruct b0, b1, b2, b3, b4, b5, b6, b7;
      first [reflexivity | exfalso; apply N; reflexivity].
Qed.

Lemma parseInt_no_prefix (t : string) :
  trimStart t = t ->
  startsInteger (snd (stripSign t)) = false ->
  parseInt t = NaN.
Proof.
  intros Ht Hd. unfold parseInt. rewrite Ht.
  destruct (stripSign t) as [neg u]. cbn [snd] in Hd.
  destruct u as [|c r]; [reflexivity|].
  cbn [startsInteger] in Hd.
  destruct (Ascii.eqb_spec c "0") as [E|N].
  - subst c. destruct r as [|x hex]; [discriminate Hd|].
    destruct (Ascii.eqb_spec x "x") as [Ex|Nx];
      [|destruct (Ascii.eqb_spec x "X") as [EX|NX]];
      cbn [orb] in Hd; try discriminate Hd; subst x;
      (destruct hex as [|h hex'];
       [ reflexivity
       | cbn [fst spanDigits];
         rewrite (not_digit 16 h) by (right; split; trivial); reflexivity ]).
  - destruct c as [b0 b1 b2 b3 b4 b5 b6 b7].
    destruct b0, b1, b2, b3, b4, b5, b6, b7;
      first [ reflexivity
            | exfalso; apply N; reflexivity
            | vm_compute in Hd; discriminate Hd ].
Qed.

(** A string with no numeric prefix parses to NaN. *)
Lemma parseFloat_unparseable (s : string) :
  floatPrefix s = false -> parseFloat s = NaN.
Proof.
  unfold floatPrefix.
  rewrite <- parseFloat_trimStart, <- skipSpaces_trimStart.
  destruct (trimStart_head s) as [E | (b & r & E & W)]; rewrite E;
    [reflexivity|].
  destruct (isLead b) eqn:L.
  - intros _. apply lead_is_no_number. exact L.
  - rewrite (skipSpaces_stays b r W L). intro H.
    apply orb_false_iff in H. destruct H as [Hd Hi].
    apply parseFloat_no_prefix; [|assumption ..].
    cbn [trimStart]. rewrite W. reflexivity.
Qed.

Lemma parseInt_unparseable (s : string) :
  intPrefix s = false -> parseInt s = NaN.
Proof.
  unfold intPrefix.
  rewrite <- parseInt_trimStart, <- skipSpaces_trimStart.
  destruct (trimStart_head s) as [E | (b & r & E & W)]; rewrite E;
    [reflexivity|].
  destruct (isLead b) eqn:L.
  - intros _. apply lead_is_no_number. exact L.
  - rewrite (skipSpaces_stays b r W L). intro H.
    apply parseInt_no_prefix; [|assumption].
    cbn [trimStart]. rewrite W. reflexivity.
Qed.

Lemma parseFloat_or_str_unparseable (o : option string) :
  unparseableFloat o = true -> parseFloat (or_str o "0") = NaN.
Proof.
  destruct o as [[|c r]|]; try discriminate. intro H. cbn [or_str].
  apply parseFloat_unparseable. apply negb_true_iff. exact H.
Qed.

Lemma parseInt_or_str_unparseable (o : option string) :
  unparseableInt o = true -> parseInt (or_str o "0") = NaN.
Proof.
  destruct o as [[|c r]|]; try discriminate. intro H. cbn [or_str].
  apply parseInt_unparseable. apply negb_true_iff. exact H.
Qed.

(** C4, as stated, fails: a spend of "abc" becomes NaN in the record, and
    so does a purchase count of "n/a"; neither is 0. *)
Lemma unparseable_not_zero_counterexample :
  let row :=
    Insights.mk None (Some "abc") (Some "1000") (Some "2.0") (Some "1.5")
      (Some [RawAction.mk "purchase" (Some "n/a")]) None in
  let r := normalize (Descriptor.mk "1" "Promo" "ACTIVE")
             (Replied (Some [row])) in
  Campaign.spend r = NaN /\ eqb (Campaign.spend r) zero = false
  /\ Campaign.purchases r = NaN /\ eqb (Campaign.purchases r) zero = false
  /\ extractAction (Some [RawAction.mk "purchase" (Some "n/a")]) purchaseTypes
     <> zero.
Proof. vm_compute. repeat split. discriminate. Qed.

(** C4, amended.  Normalization and action extraction return a value for
    every payload.  A spend, impressions, ctr, frequency or action value
    that is missing or the empty string is taken as 0.  A non-numeric
    string, one with no prefix its parser reads (as "abc", "Invalid",
    "$12", "-", "." or "#N/A"), is not: it becomes NaN in the record, and
    roas is 0 when spend is such a string. *)
Theorem normalize_degraded_fields (campaign : Descriptor.t)
    (row : Insights.t) (others : list Insights.t) :
  let r := normalize campaign (Replied (Some (row :: others))) in
  (missing (Insights.spend row) = true -> Campaign.spend r = zero)
  /\ (missing (Insights.impressions row) = true ->
      Campaign.impressions r = zero)
  /\ (missing (Insights.ctr row) = true -> Campaign.ctr r = zero)
  /\ (missing (Insights.frequency row) = true -> Campaign.frequency r = zero)
  /\ (unparseableFloat (Insights.spend row) = true ->
      Campaign.spend r = NaN /\ Campaign.roas r = zero)
  /\ (unparseableInt (Insights.impressions row) = true ->
      Campaign.impressions r = NaN)
  /\ (unparseableFloat (Insights.ctr row) = true -> Campaign.ctr r = NaN)
  /\ (unparseableFloat (Insights.frequency row) = true ->
      Campaign.frequency r = NaN)
  /\ (forall actionTypes before action after,
        (forall a, In a before -> matches actionTypes a = false) ->
        matches actionTypes action = true ->
        (missing (RawAction.value action) = true ->
         extractAction (Some (before ++ action :: after)%list) actionTypes
         = zero)
        /\ (unparseableInt (RawAction.value action) = true ->
            extractAction (Some (before ++ action :: after)%list) actionTypes
            = NaN))
  /\ (forall before action after,
        (forall a, In a before -> matches purchaseTypes a = false) ->
        matches purchaseTypes action = true ->
        (missing (RawAction.value action) = true ->
         extractPurchases (Some (before ++ action :: after)%list) = zero
         /\ extractRevenue (Some (before ++ action :: after)%list) = zero)
        /\ (unparseableInt (RawAction.value action) = true ->
            extractPurchases (Some (before ++ action :: after)%list) = NaN)
        /\ (unparseableFloat (RawAction.value action) = true ->
            extractRevenue (Some (before ++ action :: after)%list) = NaN)).
Proof.
  cbn zeta. cbn [normalize firstRow fromInsights Campaign.spend
    Campaign.impressions Campaign.ctr Campaign.frequency Campaign.roas].
  repeat match goal with |- _ /\ _ => split end.
  - intro H. rewrite (or_str_missing _ _ H). reflexivity.
  - intro H. rewrite (or_str_missing _ _ H). reflexivity.
  - intro H. rewrite (or_str_missing _ _ H). reflexivity.
  - intro H. rewrite (or_str_missing _ _ H). reflexivity.
  - intro H. rewrite (parseFloat_or_str_unparseable _ H). split; reflexivity.
  - intro H. apply parseInt_or_str_unparseable. exact H.
  - intro H. apply parseFloat_or_str_unparseable. exact H.
  - intro H. apply parseFloat_or_str_unparseable. exact H.
  - intros actionTypes before action after Hb Ha.
    cbn [extractAction]. rewrite scan_find, (find_skip _ _ _ Hb).
    cbn [find]. rewrite Ha. split; intro H.
    + rewrite (or_str_missing _ _ H). reflexivity.
    + apply parseInt_or_str_unparseable. exact H.
  - intros before action after Hb Ha.
    cbn [extractPurchases extractRevenue].
    rewrite !scan_find, (find_skip _ _ _ Hb).
    cbn [find]. rewrite Ha. split; [|split]; intro H.
    + rewrite (or_str_missing _ _ H). split; reflexivity.
    + apply parseInt_or_str_unparseable. exact H.
    + apply parseFloat_or_str_unparseable. exact H.
Qed.

Lemma normalize_degraded_fields_witness :
  let row :=
    Insights.mk None (Some "Invalid") None (Some "") (Some "#N/A") None
      None in
  let r := normalize (Descriptor.mk "1" "Promo" "ACTIVE")
             (Replied (Some [row])) in
  Campaign.impressions r = zero /\ Campaign.ctr r = zero
  /\ (Campaign.spend r = NaN /\ Campaign.roas r = zero)
  /\ Campaign.frequency r = NaN
  /\ extractAction
       (Some ([] ++ RawAction.mk "purchase" None :: [])%list) purchaseTypes
     = zero
  /\ extractAction
       (Some ([] ++ RawAction.mk "add_to_cart" (Some "-") :: [])%list)
       addToCartTypes
     = NaN
  /\ extractPurchases
       (Some ([] ++ RawAction.mk "purchase" (Some ".") :: [])%list) = NaN
  /\ extractRevenue
       (Some ([] ++ RawAction.mk "purchase" (Some "$12") :: [])%list) = NaN.
Proof.
  destruct (normalize_degraded_fields (Descriptor.mk "1" "Promo" "ACTIVE")
              (Insights.mk None (Some "Invalid") None (Some "")
                 (Some "#N/A") None None) [])
    as (_ & Hi & Hc & _ & Hs & _ & _ & Hf & Ha & Hr).
  split; [apply Hi; reflexivity|].
  split; [apply Hc; reflexivity|].
  split; [apply Hs; reflexivity|].
  split; [apply Hf; reflexivity|].
  split; [|split; [|split]].
  - apply (Ha purchaseTypes [] (RawAction.mk "purchase" None) []).
    + intros a [].
    + reflexivity.
    + reflexivity.
  - apply (Ha addToCartTypes [] (RawAction.mk "add_to_cart" (Some "-")) []).
    + intros a [].
    + reflexivity.
    + reflexivity.
  - apply (Hr [] (RawAction.mk "purchase" (Some ".")) []).
    + intros a [].
    + reflexivity.
    + reflexivity.
  - apply (Hr [] (RawAction.mk "purchase" (Some "$12")) []).
    + intros a [].
    + reflexivity.
    + reflexivity.
Defined.

End Normalization.

(** ** Aggregation *)

Section Aggregation.
Import JS Dashboard Count.

(** Each field of the totals is the fold of that field alone. *)
Lemma totals_fields (l : list Campaign.t) (acc : Totals.t) :
  let t := fold_left addCampaign l acc in
  Totals.spend t
  = fold_left (fun a c => add a (Campaign.spend c)) l (Totals.spend acc)
  /\ Totals.impressions t
     = fold_left (fun a c => add a (Campaign.impressions c)) l
         (Totals.impressions acc)
  /\ Totals.revenue t
     = fold_left (fun a c => add a (Campaign.revenue c)) l (Totals.revenue acc)
  /\ Totals.purchases t
     = fold_left (fun a c => add a (Campaign.purchases c)) l
         (Totals.purchases acc)
  /\ Totals.addToCart t
     = fold_left (fun a c => add a (or_num (Campaign.addToCart c) zero)) l
         (Totals.addToCart acc)
  /\ Totals.initiateCheckout t
     = fold_left (fun a c => add a (or_num (Campaign.initiateCheckout c) zero))
         l (Totals.initiateCheckout acc).
Proof.
  cbn zeta. revert acc. induction l as [|c l IH]; intro acc.
  - repeat split.
  - cbn [fold_left]. apply (IH (addCampaign acc c)).
Qed.

Lemma or_num_count (x : number) : isCount x -> or_num x zero = x.
Proof.
  intros [_ E]. destruct x as [s|s| |s m e]; try reflexivity.
  - cbn in E. symmetry. exact E.
  - cbn in E. discriminate E.
Qed.

Lemma fieldSum_nonneg (field : Campaign.t -> number) (l : list Campaign.t) :
  Forall (fun c => isCount (field c)) l -> 0 <= fieldSum field l.
Proof.
  induction 1 as [|c l [Hc _] _ IH]; cbn [fieldSum fold_right].
  - lia.
  - fold (fieldSum field l). lia.
Qed.

(** Folding [add] over counts computes the exact sum, as long as it stays
    below 2^53.  [used] is what the reducer adds for a record, [field] the
    field it stands for. *)
Lemma fold_add_counts (used field : Campaign.t -> number)
    (l : list Campaign.t) (a : Z) :
  (forall c, isCount (field c) -> used c = field c) ->
  Forall (fun c => isCount (field c)) l ->
  0 <= a -> a + fieldSum field l < 2 ^ prec ->
  fold_left (fun acc c => add acc (used c)) l (of_Z a)
  = of_Z (a + fieldSum field l).
Proof.
  intros Hused Hl. revert a.
  induction Hl as [|c l Hc Hl IH]; intros a Ha Hsum;
    cbn [fold_left fieldSum fold_right].
  - rewrite Z.add_0_r. reflexivity.
  - fold (fieldSum field l) in *.
    pose proof (fieldSum_nonneg field l Hl) as Hnn.
    cbn [fieldSum fold_right] in Hsum. fold (fieldSum field l) in Hsum.
    rewrite (Hused c Hc). destruct Hc as [Hc0 Hc].
    rewrite Hc at 1. rewrite add_of_Z by lia.
    rewrite IH by lia. f_equal. lia.
Qed.

Lemma Forall_filter {A : Type} (P : A -> Prop) (f : A -> bool) (l : list A) :
  Forall P l -> Forall P (filter f l).
Proof.
  induction 1 as [|x l Hx _ IH]; cbn [filter].
  - constructor.
  - destruct (f x); [constructor; assumption | assumption].
Qed.

(** The three status filters split the exact sum of a field. *)
Lemma fieldSum_partition (field : Campaign.t -> number) (l : list Campaign.t) :
  Forall filterable l ->
  fieldSum field l
  = fieldSum field (filteredCampaigns ACTIVE l)
    + fieldSum field (filteredCampaigns PAUSED l)
    + fieldSum field (filteredCampaigns ARCHIVED l).
Proof.
  unfold filteredCampaigns, filterName.
  induction 1 as [|c l Hc _ IH]; [reflexivity|].
  cbn [fieldSum fold_right filter]. fold (fieldSum field l).
  unfold filterable in Hc. cbn [In] in Hc.
  destruct Hc as [E | [E | [E | []]]]; rewrite <- E;
    cbn [String.eqb Ascii.eqb Bool.eqb fieldSum fold_right];
    unfold fieldSum in IH |- *; lia.
Qed.

Lemma fold_partition (used field : Campaign.t -> number) (l : list Campaign.t) :
  (forall c, isCount (field c) -> used c = field c) ->
  Forall filterable l ->
  Forall (fun c => isCount (field c)) l ->
  fieldSum field l < 2 ^ prec ->
  let sum f :=
    fold_left (fun acc c => add acc (used c)) (filteredCampaigns f l) zero in
  sum ALL = add (add (sum ACTIVE) (sum PAUSED)) (sum ARCHIVED).
Proof.
  intros Hused Hst Hl Hsum. cbv beta zeta.
  pose proof (fieldSum_partition field l Hst) as Hpart.
  assert (Hf : forall f, Forall (fun c => isCount (field c))
                           (filteredCampaigns f l)).
  { intros []; cbn [filteredCampaigns];
      [assumption | apply Forall_filter; assumption ..]. }
  pose proof (fieldSum_nonneg field _ (Hf ACTIVE)) as Ha.
  pose proof (fieldSum_nonneg field _ (Hf PAUSED)) as Hp.
  pose proof (fieldSum_nonneg field _ (Hf ARCHIVED)) as Hr.
  change zero with (of_Z 0).
  rewrite (fold_add_counts used field _ 0 Hused (Hf ALL))
    by (cbn [filteredCampaigns]; lia).
  rewrite (fold_add_counts used field _ 0 Hused (Hf ACTIVE)) by lia.
  rewrite (fold_add_counts used field _ 0 Hused (Hf PAUSED)) by lia.
  rewrite (fold_add_counts used field _ 0 Hused (Hf ARCHIVED)) by lia.
  rewrite !Z.add_0_l, !add_of_Z by lia.
  f_equal. exact Hpart.
Qed.

(** C7, as stated, fails.  A DELETED campaign counts in the totals of ALL
    and in none of the three status filters; and the additions round, so
    that 0.1 (PAUSED), 0.2 and 0.3 (ACTIVE) give 0.6000000000000001 for
    ALL and 0.6 for the three filters together. *)
Lemma partition_counterexample :
  let sum records f := Totals.spend (aggregate records f) in
  let deleted :=
    [Campaign.mk "Old" "DELETED" (of_Z 1) zero zero zero zero zero zero zero
       zero] in
  let mk status spend :=
    Campaign.mk "c" status (parseFloat spend) zero zero zero zero zero zero
      zero zero in
  let tenths := [mk "PAUSED" "0.1"; mk "ACTIVE" "0.2"; mk "ACTIVE" "0.3"] in
  sum deleted ALL
  <> add (add (sum deleted ACTIVE) (sum deleted PAUSED)) (sum deleted ARCHIVED)
  /\ sum tenths ALL
     <> add (add (sum tenths ACTIVE) (sum tenths PAUSED)) (sum tenths ARCHIVED)
  /\ sum tenths ALL = parseFloat "0.6000000000000001"
  /\ add (add (sum tenths ACTIVE) (sum tenths PAUSED)) (sum tenths ARCHIVED)
     = parseFloat "0.6".
Proof. vm_compute. repeat split; discriminate. Qed.

(** C7, amended.  For every list of records whose statuses are all ACTIVE,
    PAUSED or ARCHIVED, each summed field (spend, impressions, revenue,
    purchases, addToCart, initiateCheckout) whose values over the records
    are non-negative integers with an exact sum below 2^53 is, in
    aggregate(records, ALL), the sum of that field of
    aggregate(records, ACTIVE), aggregate(records, PAUSED) and
    aggregate(records, ARCHIVED).  The condition is on the field alone:
    what the other fields hold does not matter. *)
Theorem aggregate_partition_counts (records : list Campaign.t) :
  Forall filterable records ->
  let sum field :=
    add (add (field (aggregate records ACTIVE))
             (field (aggregate records PAUSED)))
        (field (aggregate records ARCHIVED)) in
  let counts field :=
    Forall (fun c => isCount (field c)) records
    /\ fieldSum field records < 2 ^ 53 in
  (counts Campaign.spend ->
   Totals.spend (aggregate records ALL) = sum Totals.spend)
  /\ (counts Campaign.impressions ->
      Totals.impressions (aggregate records ALL) = sum Totals.impressions)
  /\ (counts Campaign.revenue ->
      Totals.revenue (aggregate records ALL) = sum Totals.revenue)
  /\ (counts Campaign.purchases ->
      Totals.purchases (aggregate records ALL) = sum Totals.purchases)
  /\ (counts Campaign.addToCart ->
      Totals.addToCart (aggregate records ALL) = sum Totals.addToCart)
  /\ (counts Campaign.initiateCheckout ->
      Totals.initiateCheckout (aggregate records ALL)
      = sum Totals.initiateCheckout).
Proof.
  intros Hst. cbv beta zeta.
  unfold aggregate, totals.
  destruct (totals_fields (filteredCampaigns ALL records) noTotals)
    as (T1 & T2 & T3 & T4 & T5 & T6).
  destruct (totals_fields (filteredCampaigns ACTIVE records) noTotals)
    as (A1 & A2 & A3 & A4 & A5 & A6).
  destruct (totals_fields (filteredCampaigns PAUSED records) noTotals)
    as (P1 & P2 & P3 & P4 & P5 & P6).
  destruct (totals_fields (filteredCampaigns ARCHIVED records) noTotals)
    as (R1 & R2 & R3 & R4 & R5 & R6).
  rewrite T1, T2, T3, T4, T5, T6, A1, A2, A3, A4, A5, A6,
    P1, P2, P3, P4, P5, P6, R1, R2, R3, R4, R5, R6.
  cbn [noTotals Totals.spend Totals.impressions Totals.revenue
       Totals.purchases Totals.addToCart Totals.initiateCheckout].
  repeat match goal with |- _ /\ _ => split end; intros [Hc B].
  - apply (fold_partition Campaign.spend Campaign.spend); auto.
  - apply (fold_partition Campaign.impressions Campaign.impressions); auto.
  - apply (fold_partition Campaign.revenue Campaign.revenue); auto.
  - apply (fold_partition Campaign.purchases Campaign.purchases); auto.
  - apply (fold_partition (fun c => or_num (Campaign.addToCart c) zero)
             Campaign.addToCart); auto.
    intros c H. apply or_num_count. exact H.
  - apply (fold_partition (fun c => or_num (Campaign.initiateCheckout c) zero)
             Campaign.initiateCheckout); auto.
    intros c H. apply or_num_count. exact H.
Qed.

(** Spends of 12.34, 0.1 and 0.2 are no integers; impressions and
    purchases are, and partition. *)
Lemma aggregate_partition_counts_witness :
  let records :=
    [Campaign.mk "Spring" "ACTIVE" (parseFloat "12.34") (of_Z 1000) lit_1_5
       one (of_Z 12) (of_Z 30) (of_Z 20) (of_Z 250) lit_1_5;
     Campaign.mk "Summer" "PAUSED" (parseFloat "0.1") (of_Z 500) zero zero
       zero zero zero zero zero;
     Campaign.mk "Winter" "ARCHIVED" (parseFloat "0.2") (of_Z 90) one one
       (of_Z 1) (of_Z 2) (of_Z 1) (of_Z 9) one] in
  Totals.impressions (aggregate records ALL)
  = add (add (Totals.impressions (aggregate records ACTIVE))
             (Totals.impressions (aggregate records PAUSED)))
        (Totals.impressions (aggregate records ARCHIVED))
  /\ Totals.purchases (aggregate records ALL)
     = add (add (Totals.purchases (aggregate records ACTIVE))
                (Totals.purchases (aggregate records PAUSED)))
           (Totals.purchases (aggregate records ARCHIVED))
  /\ Totals.impressions (aggregate records ALL) = of_Z 1590.
Proof.
  cbn zeta.
  destruct (aggregate_partition_counts
    [Campaign.mk "Spring" "ACTIVE" (parseFloat "12.34") (of_Z 1000) lit_1_5
       one (of_Z 12) (of_Z 30) (of_Z 20) (of_Z 250) lit_1_5;
     Campaign.mk "Summer" "PAUSED" (parseFloat "0.1") (of_Z 500) zero zero
       zero zero zero zero zero;
     Campaign.mk "Winter" "ARCHIVED" (parseFloat "0.2") (of_Z 90) one one
       (of_Z 1) (of_Z 2) (of_Z 1) (of_Z 9) one])
    as (_ & Hi & _ & Hp & _).
  - repeat constructor; unfold filterable; cbn; tauto.
  - split; [apply Hi | split; [apply Hp | reflexivity]].
    + split; [repeat constructor; vm_compute; congruence
             | vm_compute; reflexivity].
    + split; [repeat constructor; vm_compute; congruence
             | vm_compute; reflexivity].
Defined.

End Aggregation.

(** ** The fallback loops *)

Section Fallback.
Import JS Advisory.

(** The analyze route awaits the whole text inside the [try]: when every
    model fails, at the call or in its stream, the response is the error
    text built from the last failure, and carries no chunk. *)
Lemma analyze_exhausted (backend : string -> Generation) :
  (forall modelId, In modelId models -> failed (backend modelId) = true) ->
  exists message,
    analyze backend = Some (Text (errorMsg message))
    /\ awaitText (backend "gemini-3-flash-preview") = inr message
    /\ forwarded (analyze backend) = [].
Proof.
  intro H.
  pose proof (H "gemini-3.1-pro-preview" (or_introl eq_refl)) as H1.
  pose proof (H "gemini-3-flash-preview" (or_intror (or_introl eq_refl))) as H2.
  unfold analyze, models. cbn [last analyzeLoop].
  destruct (backend "gemini-3.1-pro-preview") as [m1 | c1 [|m1]];
    try discriminate H1;
    destruct (backend "gemini-3-flash-preview") as [m2 | c2 [|m2]];
    try discriminate H2; cbn; eexists; repeat split.
Qed.

(** The chat route has the same outcome when every model fails at the
    call. *)
Lemma chat_exhausted_at_call (backend : string -> Generation)
    (m1 m2 : option string) :
  backend "gemini-3.1-pro-preview" = Throws m1 ->
  backend "gemini-3-flash-preview" = Throws m2 ->
  chat backend = Some (Text (errorMsg m2)).
Proof.
  intros H1 H2. unfold chat, models. cbn [last chatLoop].
  rewrite H1. cbn. rewrite H2. reflexivity.
Qed.

(** C8 on the chat route.  The first model answers with a stream that
    carries "Hola" and then fails, and the second model fails too: every
    backend fails.  The chat route has already returned the stream of the
    first model, chunk included, and builds no error text; the analyze
    route, given the same backends, returns the error text alone. *)
Theorem chat_forwards_failed_stream :
  let backend modelId :=
    if String.eqb modelId "gemini-3.1-pro-preview"
    then Streams ["Hola"] (Errored (Some "overloaded"))
    else Throws (Some "quota exceeded") in
  let request := {| user := true; body := Some 1%nat; apiKey := true |} in
  forallb (fun modelId => failed (backend modelId)) models = true
  /\ chatPOST request backend
     = Some (TextStream ["Hola"] (Errored (Some "overloaded")))
  /\ forwarded (chatPOST request backend) = ["Hola"]
  /\ analyzePOST request backend
     = Some (Text (errorMsg (Some "quota exceeded"))).
Proof. cbv beta zeta. repeat split. Qed.

End Fallback.

(** ** Cancellation in the chat client *)

Section Cancellation.
Import JS ChatClient.

Lemma readLoop_abort (delivered : list string) (message : option string)
    (later : list ReadResult) (fullText : string) (log : list Update) :
  readLoop fullText
    (map Value delivered ++ ReadRejects "AbortError" message :: later)%list log
  = Settled (log ++ shown fullText delivered)%list.
Proof.
  revert fullText log.
  induction delivered as [|chunk delivered IH]; intros fullText log;
    cbn [map app readLoop shown].
  - unfold catch. cbn. rewrite app_nil_r. reflexivity.
  - rewrite IH, <- app_assoc. reflexivity.
Qed.

Lemma shown_no_error (delivered : list string) (fullText : string) :
  existsb isError (shown fullText delivered) = false.
Proof.
  revert fullText.
  induction delivered as [|chunk delivered IH]; intro fullText;
    cbn [shown existsb isError]; [reflexivity | apply IH].
Qed.

(** A rejection that is not an abort does write an error message. *)
Lemma failure_is_shown (fullText : string) (log : list Update) :
  readLoop fullText [ReadRejects "TypeError" (Some "network error")] log
  = Settled (log ++ [ShowError (errorContent (Some "network error"))])%list.
Proof. reflexivity. Qed.

(** C9.  Once the request is aborted (the pending read, or the pending
    fetch, rejects with an AbortError), [sendChatMessage] settles: the
    updates it has made are those of the chunks read before the abort,
    nothing that the stream would still carry is shown, and no error
    message is written. *)
Theorem abort_is_silent (delivered : list string) (message : option string)
    (later : list ReadResult) :
  let aborted :=
    sendChatMessage
      (Responds true
         (Some (map Value delivered
                ++ ReadRejects "AbortError" message :: later)%list)) in
  aborted = Settled (shown "" delivered)
  /\ aborted
     = sendChatMessage
         (Responds true
            (Some (map Value delivered
                   ++ [ReadRejects "AbortError" message])%list))
  /\ existsb isError (logOf aborted) = false
  /\ sendChatMessage (FetchRejects "AbortError" message) = Settled [].
Proof.
  cbv beta zeta. cbn [sendChatMessage].
  rewrite !readLoop_abort. cbn [app logOf].
  repeat split. apply shown_no_error.
Qed.

End Cancellation.

(** ** The worked examples of the specification *)

Section Examples.
Import JS CampaignsRoute Dashboard Spec.

(** spend 100, revenue 250, ctr 2.0, frequency 1.5: roas 2.5, green. *)
Example scale_candidate :
  let m := normalize promo (Replied (Some [row "100" "2.0" "1.5" "250"])) in
  Campaign.roas m = parseFloat "2.5" /\ getCampaignHealth m = green.
Proof. vm_compute. split; reflexivity. Qed.

(** spend 100, revenue 50, ctr 2.0, frequency 1.0: roas 0.5, red. *)
Example low_roas :
  let m := normalize promo (Replied (Some [row "100" "2.0" "1.0" "50"])) in
  Campaign.roas m = parseFloat "0.5" /\ getCampaignHealth m = red.
Proof. vm_compute. split; reflexivity. Qed.

(** No insights: roas 0 would pass the red test, the record is gray. *)
Example dormant_campaign :
  let m := normalize promo (Replied None) in
  ltb (Campaign.roas m) one = true /\ getCampaignHealth m = gray.
Proof. vm_compute. split; reflexivity. Qed.

(** No record: all totals are 0, and so is the mean ctr. *)
Example empty_totals :
  aggregate [] ALL = noTotals /\ ctrPromedio [] = zero
  /\ roasGeneral (aggregate [] ALL) = zero
  /\ cpaGeneral (aggregate [] ALL) = zero.
Proof. vm_compute. repeat split. Qed.

End Examples.

(** * Further properties of the code *)

(** ** The campaigns route *)

Section RouteProperties.
Import JS CampaignsRoute Spec.

Lemma normalize_status (campaign : Descriptor.t) (reply : InsightsReply) :
  Campaign.status (normalize campaign reply) = Descriptor.status campaign.
Proof.
  destruct reply as [|data]; [reflexivity|].
  cbn [normalize]. destruct (firstRow data); reflexivity.
Qed.

Lemma filter_normalize (s : string) (campaigns : list Descriptor.t)
    (reply : Descriptor.t -> InsightsReply) :
  filter (fun c => String.eqb (Campaign.status c) s)
    (map (fun campaign => normalize campaign (reply campaign)) campaigns)
  = map (fun campaign => normalize campaign (reply campaign))
      (filter (fun c => String.eqb (Descriptor.status c) s) campaigns).
Proof.
  induction campaigns as [|c campaigns IH]; [reflexivity|].
  cbn [map filter]. rewrite normalize_status, IH.
  destruct (String.eqb (Descriptor.status c) s); reflexivity.
Qed.

(** X1.  The status filter of the route and the status filter of the
    dashboard agree: asking the route for the records of one filter gives
    the records the dashboard would keep of the unfiltered reply, and the
    dashboard filter then leaves the filtered reply as it is. *)
Theorem route_filter_is_dashboard_filter (f : Dashboard.StatusFilter)
    (campaigns : list Descriptor.t) (reply : Descriptor.t -> InsightsReply) :
  campaignsWithInsights (Some (Dashboard.filterName f)) campaigns reply
  = Dashboard.filteredCampaigns f (campaignsWithInsights None campaigns reply)
  /\ Dashboard.filteredCampaigns f
       (campaignsWithInsights (Some (Dashboard.filterName f)) campaigns reply)
     = campaignsWithInsights (Some (Dashboard.filterName f)) campaigns reply.
Proof.
  assert (E : campaignsWithInsights (Some (Dashboard.filterName f))
                campaigns reply
              = Dashboard.filteredCampaigns f
                  (campaignsWithInsights None campaigns reply)).
  { destruct f; cbn [Dashboard.filterName Dashboard.filteredCampaigns];
      unfold campaignsWithInsights; cbn [String.eqb Ascii.eqb Bool.eqb];
      try reflexivity; symmetry; apply filter_normalize. }
  split; [exact E|].
  rewrite E. destruct f; cbn [Dashboard.filteredCampaigns];
    try reflexivity; unfold Dashboard.filterName;
    set (p := fun c : Campaign.t => String.eqb (Campaign.status c) _);
    set (l := campaignsWithInsights None campaigns reply);
    clearbody l; clear E;
    (induction l as [|c l IH]; [reflexivity|]; cbn [filter];
     destruct (p c) eqn:Hp; cbn [filter]; rewrite ?Hp, IH; reflexivity).
Qed.

(** X2.  The insights requests never decide whether the route answers:
    when it succeeds, [total] is the number of records, the currency is
    not empty, and with any other outcome of the insights requests (all
    of them failing, say) it succeeds too, with the same currency, total,
    and statuses, record by record. *)
Theorem GET_success_shape (accountId status : option string) (user : bool)
    (connection : option CampaignsGET.Connection)
    (listing : CampaignsGET.CampaignsFetch)
    (insights insights' : Descriptor.t -> InsightsReply)
    (account : CampaignsGET.AccountFetch)
    (data : list Campaign.t) (currency : string) (total : nat) :
  CampaignsGET.GET accountId status user connection listing insights account
  = CampaignsGET.Success data currency total ->
  total = List.length data
  /\ currency <> EmptyString
  /\ exists data',
       CampaignsGET.GET accountId status user connection listing insights'
         account
       = CampaignsGET.Success data' currency total
       /\ map Campaign.status data' = map Campaign.status data.
Proof.
  unfold CampaignsGET.GET.
  destruct user; [|discriminate]. cbn [negb].
  destruct connection as [c|]; [|discriminate].
  destruct (CampaignsGET.access_token c) as [[|t0 t]|]; try discriminate.
  destruct (CampaignsGET.adAccountId accountId c); [|discriminate].
  destruct listing as [|message|listed]; try discriminate.
  destruct account as [|cur]; [discriminate|].
  intro H. injection H as <- <- <-.
  assert (S : forall i,
            map Campaign.status
              (campaignsWithInsights status
                 (match listed with Some l => l | None => [] end) i)
            = map Descriptor.status
                (match status with
                 | None | Some EmptyString =>
                     match listed with Some l => l | None => [] end
                 | Some s =>
                     if String.eqb s "ALL"
                     then match listed with Some l => l | None => [] end
                     else filter (fun c => String.eqb (Descriptor.status c) s)
                            (match listed with Some l => l | None => [] end)
                 end)).
  { intro i. unfold campaignsWithInsights. rewrite map_map.
    apply map_ext. intro d. apply normalize_status. }
  split; [reflexivity | split].
  - destruct cur as [[|c0 r0]|]; discriminate.
  - eexists. split; [|rewrite (S insights'), (S insights); reflexivity].
    f_equal.
    rewrite <- (length_map Campaign.status), (S insights').
    rewrite <- (length_map Campaign.status _), (S insights). reflexivity.
Qed.

Lemma GET_success_shape_witness :
  exists data',
    CampaignsGET.GET (Some "act_1") (Some "ACTIVE") true
      (Some {| CampaignsGET.access_token := Some "token";
               CampaignsGET.ad_accounts := None |})
      (CampaignsGET.Listed
         (Some [Descriptor.mk "1" "Promo" "ACTIVE";
                Descriptor.mk "2" "Old" "PAUSED"]))
      (fun _ => Threw) (CampaignsGET.Account None)
    = CampaignsGET.Success data' "USD" 1
    /\ map Campaign.status data' = ["ACTIVE"].
Proof.
  apply (GET_success_shape (Some "act_1") (Some "ACTIVE") true
           (Some {| CampaignsGET.access_token := Some "token";
                    CampaignsGET.ad_accounts := None |})
           (CampaignsGET.Listed
              (Some [Descriptor.mk "1" "Promo" "ACTIVE";
                     Descriptor.mk "2" "Old" "PAUSED"]))
           (fun _ => Replied None) (fun _ => Threw)
           (CampaignsGET.Account None)
           [Campaign.mk "Promo" "ACTIVE" zero zero zero zero zero zero zero
              zero zero]
           "USD" 1%nat).
  reflexivity.
Defined.

(** X3.  An action whose type is not among the requested ones is never
    read: dropping every such action from the list changes the result of
    none of the three extractors. *)
Theorem extractors_ignore_other_actions (actionTypes : list string)
    (actions : list RawAction.t) :
  extractAction (Some actions) actionTypes
  = extractAction (Some (filter (matches actionTypes) actions)) actionTypes
  /\ extractPurchases (Some actions)
     = extractPurchases (Some (filter (matches purchaseTypes) actions))
  /\ extractRevenue (Some actions)
     = extractRevenue (Some (filter (matches purchaseTypes) actions)).
Proof.
  assert (F : forall types l,
            find (matches types) (filter (matches types) l)
            = find (matches types) l).
  { intros types l. induction l as [|a l IH]; [reflexivity|].
    cbn [filter find]. destruct (matches types a) eqn:Ha; cbn [find].
    - rewrite Ha. reflexivity.
    - exact IH. }
  unfold extractAction, extractPurchases, extractRevenue.
  rewrite !scan_find, !F. repeat split.
Qed.

(** X4.  The three lists of action types have no type in common: no
    action is counted as a purchase and as an add-to-cart, or as either
    and as an initiated checkout. *)
Theorem action_types_disjoint (t : string) :
  includes purchaseTypes t && includes addToCartTypes t = false
  /\ includes purchaseTypes t && includes initiateCheckoutTypes t = false
  /\ includes addToCartTypes t && includes initiateCheckoutTypes t = false.
Proof.
  assert (P : includes purchaseTypes t = true ->
              In t purchaseTypes).
  { unfold includes. intro H. apply existsb_exists in H.
    destruct H as (x & Hx & E). apply String.eqb_eq in E. subst. exact Hx. }
  assert (A : includes addToCartTypes t = true -> In t addToCartTypes).
  { unfold includes. intro H. apply existsb_exists in H.
    destruct H as (x & Hx & E). apply String.eqb_eq in E. subst. exact Hx. }
  repeat split.
  - destruct (includes purchaseTypes t) eqn:H; [|reflexivity].
    destruct (P eq_refl) as [<- | [<- | [<- | []]]]; reflexivity.
  - destruct (includes purchaseTypes t) eqn:H; [|reflexivity].
    destruct (P eq_refl) as [<- | [<- | [<- | []]]]; reflexivity.
  - destruct (includes addToCartTypes t) eqn:H; [|reflexivity].
    destruct (A eq_refl) as [<- | [<- | [<- | []]]]; reflexivity.
Qed.

(** X5.  A campaign without insights, be it that the platform has no row
    for the window or that the request failed or timed out, is shown as
    "no data": its record is classified gray. *)
Theorem no_insights_is_gray (campaign : Descriptor.t)
    (data : option (list Insights.t)) :
  Dashboard.getCampaignHealth (normalize campaign Threw) = Dashboard.gray
  /\ (firstRow data = None ->
      Dashboard.getCampaignHealth (normalize campaign (Replied data))
      = Dashboard.gray).
Proof.
  split; [reflexivity|].
  intro H. cbn [normalize]. rewrite H. reflexivity.
Qed.

Lemma no_insights_is_gray_witness :
  Dashboard.getCampaignHealth
    (normalize (Descriptor.mk "1" "Promo" "ACTIVE") (Replied (Some [])))
  = Dashboard.gray.
Proof.
  apply (no_insights_is_gray (Descriptor.mk "1" "Promo" "ACTIVE") (Some [])).
  reflexivity.
Defined.

End RouteProperties.

(** ** Badges, colours and totals of the dashboard *)

Section DashboardProperties.
Import JS Dashboard DashboardView Count.

Lemma Health_eqb_eq (a b : Health) : Health_eqb a b = true <-> a = b.
Proof. destruct a, b; cbn; split; intro H; congruence. Qed.

Lemma Health_eqb_sym (a b : Health) : Health_eqb a b = Health_eqb b a.
Proof. destruct a, b; reflexivity. Qed.

(** The number of a positive integer below 2^53 is finite and positive. *)
Lemma of_Z_positive (n : Z) :
  0 < n -> n < 2 ^ prec ->
  truthy (of_Z n) = true /\ gtb (of_Z n) zero = true.
Proof.
  intros Hn Hb. destruct n as [|p|p]; try lia.
  rewrite of_Z_pos by (apply digits_bound; unfold prec in *; lia).
  split; reflexivity.
Qed.

Lemma countHealth_cons (h : Health) (c : Campaign.t) (l : list Campaign.t) :
  countHealth h (c :: l)
  = (if Health_eqb h (getCampaignHealth c) then 1 else 0) + countHealth h l.
Proof.
  unfold countHealth. cbn [filter].
  rewrite (Health_eqb_sym h). destruct (Health_eqb (getCampaignHealth c) h).
  - cbn [List.length]. lia.
  - lia.
Qed.

Lemma countHealth_nonneg (h : Health) (l : list Campaign.t) :
  0 <= countHealth h l.
Proof. unfold countHealth. lia. Qed.

Lemma countHealth_le (h : Health) (l : list Campaign.t) :
  countHealth h l <= Z.of_nat (List.length l).
Proof.
  unfold countHealth. pose proof (filter_length_le
    (fun c => Health_eqb (getCampaignHealth c) h) l). lia.
Qed.

Lemma bump_tally (acc : Tally) (cnt : Health -> Z) (hc : Health) :
  (forall h, 0 <= cnt h) ->
  (forall h, acc h = tallyOf (cnt h)) ->
  cnt hc + 1 < 2 ^ prec ->
  forall h,
    bump acc hc h = tallyOf (cnt h + (if Health_eqb h hc then 1 else 0)).
Proof.
  intros Hnn Hacc Hb h. unfold bump.
  destruct (Health_eqb h hc) eqn:E.
  - apply Health_eqb_eq in E. subst h. rewrite Hacc. unfold tallyOf.
    pose proof (Hnn hc) as H0.
    destruct (Z.eqb_spec (cnt hc) 0) as [Z0|NZ].
    + rewrite Z0. reflexivity.
    + destruct (Z.eqb_spec (cnt hc + 1) 0); [lia|].
      destruct (of_Z_positive (cnt hc)) as [T _]; [lia | lia |].
      unfold or_num. rewrite T. unfold one.
      rewrite add_of_Z by lia. reflexivity.
  - rewrite Z.add_0_r. apply Hacc.
Qed.

Lemma healthCounts_from (l : list Campaign.t) (acc : Tally)
    (cnt : Health -> Z) :
  (forall h, 0 <= cnt h) ->
  (forall h, acc h = tallyOf (cnt h)) ->
  (forall h, cnt h + countHealth h l < 2 ^ prec) ->
  forall h,
    fold_left (fun acc c => bump acc (getCampaignHealth c)) l acc h
    = tallyOf (cnt h + countHealth h l).
Proof.
  revert acc cnt. induction l as [|c l IH]; intros acc cnt Hnn Hacc Hb h.
  - cbn [fold_left]. unfold countHealth. cbn. rewrite Z.add_0_r. apply Hacc.
  - cbn [fold_left].
    rewrite (IH (bump acc (getCampaignHealth c))
               (fun k => cnt k
                         + (if Health_eqb k (getCampaignHealth c)
                            then 1 else 0))).
    + rewrite countHealth_cons. f_equal. lia.
    + intro k. pose proof (Hnn k). destruct (Health_eqb _ _); lia.
    + apply bump_tally; [assumption | assumption |].
      pose proof (Hb (getCampaignHealth c)) as B.
      rewrite countHealth_cons in B.
      pose proof (countHealth_nonneg (getCampaignHealth c) l).
      replace (Health_eqb (getCampaignHealth c) (getCampaignHealth c))
        with true in B by (symmetry; apply Health_eqb_eq; reflexivity).
      lia.
    + intro k. pose proof (Hb k) as B. rewrite countHealth_cons in B. lia.
Qed.

Lemma healthCounts_tally (filtered : list Campaign.t) (h : Health) :
  Z.of_nat (List.length filtered) < 2 ^ 53 ->
  healthCounts filtered h = tallyOf (countHealth h filtered).
Proof.
  intro Hb. unfold healthCounts.
  rewrite (healthCounts_from filtered noTally (fun _ => 0)).
  - reflexivity.
  - intro; lia.
  - intro; reflexivity.
  - intro k. pose proof (countHealth_le k filtered). unfold prec. lia.
Qed.

(** X6.  For a list of fewer than 2^53 campaigns, [healthCounts] holds,
    under each health state, the exact number of campaigns in that state,
    and has no key for a state no campaign is in. *)
Theorem healthCounts_exact (filtered : list Campaign.t) (h : Health) :
  Z.of_nat (List.length filtered) < 2 ^ 53 ->
  healthCounts filtered h
  = (if countHealth h filtered =? 0 then None
     else Some (of_Z (countHealth h filtered)))
  /\ countHealth h filtered
     = Z.of_nat
         (List.length
            (filter (fun c => Health_eqb (getCampaignHealth c) h) filtered)).
Proof.
  intro Hb. split; [|reflexivity]. exact (healthCounts_tally filtered h Hb).
Qed.

Lemma healthCounts_exact_witness :
  healthCounts
    [Campaign.mk "a" "ACTIVE" zero zero zero zero zero zero zero zero zero;
     Campaign.mk "b" "ACTIVE" one one zero zero zero zero zero zero zero;
     Campaign.mk "c" "PAUSED" zero zero zero zero zero zero zero zero zero]
    gray
  = Some (of_Z 2).
Proof.
  apply (healthCounts_exact
    [Campaign.mk "a" "ACTIVE" zero zero zero zero zero zero zero zero zero;
     Campaign.mk "b" "ACTIVE" one one zero zero zero zero zero zero zero;
     Campaign.mk "c" "PAUSED" zero zero zero zero zero zero zero zero zero]
    gray).
  vm_compute. reflexivity.
Defined.

(** A key of [healthCounts] is above 0 exactly when some campaign of the
    list is in that state. *)
Lemma above0_iff (filtered : list Campaign.t) (h : Health) :
  Z.of_nat (List.length filtered) < 2 ^ 53 ->
  (above0 (healthCounts filtered h) = true
   <-> exists c, In c filtered /\ getCampaignHealth c = h).
Proof.
  intro Hb. unfold above0. rewrite (healthCounts_tally filtered h Hb).
  unfold tallyOf.
  pose proof (countHealth_nonneg h filtered) as H0.
  pose proof (countHealth_le h filtered) as H1.
  destruct (Z.eqb_spec (countHealth h filtered) 0) as [E|NE].
  - split; [discriminate|]. intros (c & Hc & Hh). exfalso.
    unfold countHealth in E.
    assert (In c (filter (fun c => Health_eqb (getCampaignHealth c) h)
                    filtered)).
    { apply filter_In. split; [exact Hc | apply Health_eqb_eq; exact Hh]. }
    destruct (filter _ filtered); [contradiction | cbn in E; lia].
  - split.
    + intros _. unfold countHealth in NE.
      destruct (filter (fun c => Health_eqb (getCampaignHealth c) h) filtered)
        as [|c rest] eqn:F; [contradiction NE; reflexivity|].
      exists c.
      assert (In c (filter (fun c => Health_eqb (getCampaignHealth c) h)
                      filtered)) as I by (rewrite F; left; reflexivity).
      apply filter_In in I. destruct I as [I E].
      split; [exact I | apply Health_eqb_eq; exact E].
    + intros _. apply of_Z_positive; unfold prec; lia.
Qed.

(** X7.  For a list of fewer than 2^53 campaigns, the page shows the badge
    of a health state exactly when the state is green, yellow or red and
    some campaign of the filtered list is in it; gray campaigns have no
    badge. *)
Theorem badge_iff_some_campaign (filtered : list Campaign.t) (h : Health) :
  Z.of_nat (List.length filtered) < 2 ^ 53 ->
  (In h (badges filtered)
   <-> h <> gray /\ exists c, In c filtered /\ getCampaignHealth c = h).
Proof.
  intro Hb.
  pose proof (above0_iff filtered green Hb) as G.
  pose proof (above0_iff filtered yellow Hb) as Y.
  pose proof (above0_iff filtered red Hb) as R.
  destruct filtered as [|first others].
  - cbn [badges In]. split; [contradiction|].
    intros (_ & c & [] & _).
  - cbn [badges]. cbv zeta. remember (first :: others) as filtered.
    rewrite !in_app_iff.
    destruct (above0 (healthCounts filtered green));
      destruct (above0 (healthCounts filtered yellow));
      destruct (above0 (healthCounts filtered red));
      cbn [In]; destruct h;
      repeat match goal with
             | H : true = true <-> _ |- _ =>
                 pose proof (proj1 H eq_refl); clear H
             | H : false = true <-> _ |- _ =>
                 pose proof (fun E => Bool.diff_false_true (proj2 H E)); clear H
             end;
      (split;
       [ intros [I | [I | I]];
         repeat match goal with
                | I : _ \/ _ |- _ => destruct I as [I | I]
                end;
         try contradiction; try discriminate;
         (split; [discriminate | assumption])
       | intros [N E]; try (exfalso; apply N; reflexivity);
         try (exfalso; auto; fail); tauto ]).
Qed.

Lemma badge_iff_some_campaign_witness :
  In red
    (badges
       [Campaign.mk "a" "ACTIVE" one one zero zero zero zero zero zero zero]).
Proof.
  apply (badge_iff_some_campaign
    [Campaign.mk "a" "ACTIVE" one one zero zero zero zero zero zero zero]
    red).
  - vm_compute. reflexivity.
  - split; [discriminate|].
    exists (Campaign.mk "a" "ACTIVE" one one zero zero zero zero zero zero
              zero).
    split; [left; reflexivity | reflexivity].
Defined.

(** Comparing the other way round gives the opposite answer. *)
Lemma SFcompare_antisym (x y : number) :
  SFcompare y x = option_map CompOpp (SFcompare x y).
Proof.
  destruct x as [sx|sx| |sx mx ex], y as [sy|sy| |sy my ey];
    try reflexivity; try (destruct sx; reflexivity);
    try (destruct sy; reflexivity); try (destruct sx, sy; reflexivity).
  cbn [SFcompare option_map].
  assert (P : Pos.compare_cont Eq my mx = CompOpp (Pos.compare_cont Eq mx my))
    by (symmetry; apply (Pos.compare_cont_antisym mx my Eq)).
  rewrite (Z.compare_antisym ex ey), P.
  destruct sx, sy, (Z.compare ex ey); cbn [CompOpp]; try reflexivity;
    destruct (Pos.compare_cont Eq mx my); reflexivity.
Qed.

Lemma leb_not_gtb (x y : number) : leb x y = true -> gtb x y = false.
Proof.
  unfold leb, gtb, SFleb, SFltb. rewrite (SFcompare_antisym x y).
  destruct (SFcompare x y) as [[]|]; cbn; congruence.
Qed.

(** For a number that is not NaN, failing [x >= y] means [x < y]. *)
Lemma not_geb_ltb (x y : number) :
  x <> NaN -> y <> NaN -> geb x y = false -> ltb x y = true.
Proof.
  unfold geb, ltb, SFleb, SFltb. rewrite (SFcompare_antisym x y).
  intros Hx Hy.
  assert (exists c, SFcompare x y = Some c) as [c E].
  { destruct x as [sx|sx| |sx mx ex], y as [sy|sy| |sy my ey];
      try (contradiction Hx; reflexivity);
      try (contradiction Hy; reflexivity); cbn; eexists; reflexivity. }
  rewrite E. destruct c; cbn; congruence.
Qed.

(** X8.  The colours of the table agree with the health state: a green
    campaign has its ROAS and CTR in emerald and its frequency not in
    red; and a campaign with activity whose ROAS is a number shown in red,
    or whose CTR is a number shown in red, is a red campaign. *)
Theorem colours_agree_with_health (c : Campaign.t) :
  (getCampaignHealth c = green ->
   getRoasColor (Campaign.roas c) = "text-emerald-600"
   /\ getCtrColor (Campaign.ctr c) = "text-emerald-600"
   /\ frequencyColor (Campaign.frequency c) = "text-slate-500")
  /\ (Spec.dormant c = false ->
      (Campaign.roas c <> NaN /\
       getRoasColor (Campaign.roas c) = "text-red-600")
      \/ (Campaign.ctr c <> NaN /\
          getCtrColor (Campaign.ctr c) = "text-red-500") ->
      getCampaignHealth c = red).
Proof.
  unfold getCampaignHealth, getRoasColor, getCtrColor, frequencyColor,
    Spec.dormant.
  split.
  - destruct (eqb (Campaign.spend c) zero && eqb (Campaign.impressions c) zero);
      [discriminate|].
    destruct (geb (Campaign.roas c) two) eqn:R; cbn [andb].
    + destruct (geb (Campaign.ctr c) lit_1_5) eqn:C; cbn [andb].
      * destruct (leb (Campaign.frequency c) three) eqn:F.
        -- intros _. rewrite (leb_not_gtb _ _ F). repeat split.
        -- destruct (_ || _ || _); discriminate.
      * destruct (_ || _ || _); discriminate.
    + destruct (_ || _ || _); discriminate.
  - intros D H. rewrite D.
    destruct H as [[N H] | [N H]].
    + destruct (geb (Campaign.roas c) two) eqn:R2; [discriminate|].
      destruct (geb (Campaign.roas c) one) eqn:R1; [discriminate|].
      cbn [andb].
      rewrite (not_geb_ltb _ one N) by (discriminate || exact R1).
      reflexivity.
    + destruct (geb (Campaign.ctr c) lit_1_5) eqn:C2; [discriminate|].
      destruct (geb (Campaign.ctr c) lit_0_8) eqn:C1; [discriminate|].
      rewrite andb_false_r. cbn [andb].
      rewrite (not_geb_ltb _ lit_0_8 N) by (discriminate || exact C1).
      rewrite orb_true_r. reflexivity.
Qed.

Lemma colours_agree_with_health_witness :
  getRoasColor (of_Z 3) = "text-emerald-600"
  /\ getCampaignHealth
       (Campaign.mk "b" "ACTIVE" one one (of_Z 2) one zero zero zero zero zero)
     = red.
Proof.
  split.
  - apply (colours_agree_with_health
             (Campaign.mk "a" "ACTIVE" one one (of_Z 2) one
                zero zero zero zero (of_Z 3))).
    reflexivity.
  - apply (colours_agree_with_health
             (Campaign.mk "b" "ACTIVE" one one (of_Z 2) one
                zero zero zero zero zero)).
    + reflexivity.
    + left. split; [discriminate | reflexivity].
Defined.

Lemma fold_add_NaN {A : Type} (g : A -> number) (l : list A) :
  fold_left (fun acc c => add acc (g c)) l NaN = NaN.
Proof. induction l as [|c l IH]; [reflexivity | exact IH]. Qed.

Lemma add_NaN_r (x : number) : add x NaN = NaN.
Proof. destruct x as [s|s| |s m e]; reflexivity. Qed.

Lemma fold_add_poisoned {A : Type} (g : A -> number) (l : list A) (c : A)
    (start : number) :
  In c l -> g c = NaN ->
  fold_left (fun acc c => add acc (g c)) l start = NaN.
Proof.
  revert start. induction l as [|x l IH]; intros start Hin Hc; [contradiction|].
  cbn [fold_left]. destruct Hin as [-> | Hin].
  - rewrite Hc, add_NaN_r. apply fold_add_NaN.
  - apply IH; assumption.
Qed.

Lemma isCount_or_zero (x : number) :
  isCount x \/ x = NaN -> isCount (or_num x zero).
Proof.
  intros [H | ->].
  - rewrite (or_num_count x H). exact H.
  - split; [cbn; lia | reflexivity].
Qed.

(** X9.  One campaign whose spend, impressions, revenue or purchases is
    NaN makes that total of the dashboard NaN.  For addToCart and
    initiateCheckout a NaN counts as 0: when the other values are counts,
    the total is their exact sum. *)
Theorem NaN_in_totals (filtered : list Campaign.t) :
  (forall c, In c filtered ->
     (Campaign.spend c = NaN -> Totals.spend (totals filtered) = NaN)
     /\ (Campaign.impressions c = NaN ->
         Totals.impressions (totals filtered) = NaN)
     /\ (Campaign.revenue c = NaN -> Totals.revenue (totals filtered) = NaN)
     /\ (Campaign.purchases c = NaN ->
         Totals.purchases (totals filtered) = NaN))
  /\ (Forall (fun c => isCount (Campaign.addToCart c)
                       \/ Campaign.addToCart c = NaN) filtered ->
      fieldSum (fun c => or_num (Campaign.addToCart c) zero) filtered < 2 ^ 53 ->
      Totals.addToCart (totals filtered)
      = of_Z (fieldSum (fun c => or_num (Campaign.addToCart c) zero) filtered))
  /\ (Forall (fun c => isCount (Campaign.initiateCheckout c)
                       \/ Campaign.initiateCheckout c = NaN) filtered ->
      fieldSum (fun c => or_num (Campaign.initiateCheckout c) zero) filtered
      < 2 ^ 53 ->
      Totals.initiateCheckout (totals filtered)
      = of_Z (fieldSum (fun c => or_num (Campaign.initiateCheckout c) zero)
                filtered)).
Proof.
  unfold totals.
  destruct (totals_fields filtered noTotals) as (T1 & T2 & T3 & T4 & T5 & T6).
  rewrite T1, T2, T3, T4, T5, T6.
  cbn [noTotals Totals.spend Totals.impressions Totals.revenue
       Totals.purchases Totals.addToCart Totals.initiateCheckout].
  split; [|split].
  - intros c Hc. repeat split; intro E.
    + apply (fold_add_poisoned Campaign.spend filtered c); assumption.
    + apply (fold_add_poisoned Campaign.impressions filtered c); assumption.
    + apply (fold_add_poisoned Campaign.revenue filtered c); assumption.
    + apply (fold_add_poisoned Campaign.purchases filtered c); assumption.
  - intros F B. change zero with (of_Z 0) at 2.
    rewrite (fold_add_counts
               (fun c => or_num (Campaign.addToCart c) zero)
               (fun c => or_num (Campaign.addToCart c) zero) filtered 0).
    + reflexivity.
    + reflexivity.
    + eapply Forall_impl; [|exact F]. intros c H. apply isCount_or_zero, H.
    + lia.
    + unfold prec. lia.
  - intros F B. change zero with (of_Z 0) at 2.
    rewrite (fold_add_counts
               (fun c => or_num (Campaign.initiateCheckout c) zero)
               (fun c => or_num (Campaign.initiateCheckout c) zero) filtered 0).
    + reflexivity.
    + reflexivity.
    + eapply Forall_impl; [|exact F]. intros c H. apply isCount_or_zero, H.
    + lia.
    + unfold prec. lia.
Qed.

Lemma NaN_in_totals_witness :
  let l :=
    [Campaign.mk "a" "ACTIVE" NaN one zero zero zero NaN zero zero zero;
     Campaign.mk "b" "ACTIVE" one one zero zero zero (of_Z 4) zero zero zero]
  in
  Totals.spend (totals l) = NaN /\ Totals.addToCart (totals l) = of_Z 4.
Proof.
  cbv zeta.
  destruct (NaN_in_totals
    [Campaign.mk "a" "ACTIVE" NaN one zero zero zero NaN zero zero zero;
     Campaign.mk "b" "ACTIVE" one one zero zero zero (of_Z 4) zero zero zero])
    as (P & A & _).
  split.
  - apply (P (Campaign.mk "a" "ACTIVE" NaN one zero zero zero NaN zero zero
                zero)).
    + left. reflexivity.
    + reflexivity.
  - rewrite A.
    + reflexivity.
    + apply Forall_cons; [right; reflexivity|].
      apply Forall_cons; [|apply Forall_nil].
      left. split; vm_compute; [congruence | reflexivity].
    + vm_compute. reflexivity.
Defined.

(** X10.  For campaigns whose summed fields are counts with exact sums
    below 2^53, the totals the chat route writes into the system prompt
    are the totals the dashboard shows for the same list. *)
Theorem prompt_totals_are_dashboard_totals (campaigns : list Campaign.t) :
  Forall countFields campaigns ->
  sumsBelow (2 ^ 53) campaigns ->
  ChatContext.totalSpend campaigns = Totals.spend (totals campaigns)
  /\ ChatContext.totalRevenue campaigns = Totals.revenue (totals campaigns)
  /\ ChatContext.totalPurchases campaigns
     = Totals.purchases (totals campaigns)
  /\ ChatContext.totalATC campaigns = Totals.addToCart (totals campaigns)
  /\ ChatContext.totalIC campaigns
     = Totals.initiateCheckout (totals campaigns).
Proof.
  intros Hc (B1 & B2 & B3 & B4 & B5 & B6).
  unfold totals.
  destruct (totals_fields campaigns noTotals) as (T1 & T2 & T3 & T4 & T5 & T6).
  rewrite T1, T3, T4, T5, T6.
  cbn [noTotals Totals.spend Totals.revenue Totals.purchases
       Totals.addToCart Totals.initiateCheckout].
  unfold ChatContext.totalSpend, ChatContext.totalRevenue,
    ChatContext.totalPurchases, ChatContext.totalATC, ChatContext.totalIC.
  change zero with (of_Z 0).
  assert (F : forall field,
            (forall c, countFields c -> isCount (field c)) ->
            fieldSum field campaigns < 2 ^ 53 ->
            fold_left (fun sum c => add sum (or_num (field c) (of_Z 0)))
              campaigns (of_Z 0)
            = fold_left (fun a c => add a (field c)) campaigns (of_Z 0)).
  { intros field Hf Hb.
    assert (Forall (fun c => isCount (field c)) campaigns)
      by (eapply Forall_impl; [|exact Hc]; exact Hf).
    rewrite (fold_add_counts (fun c => or_num (field c) (of_Z 0)) field
               campaigns 0), (fold_add_counts field field campaigns 0);
      try reflexivity; try assumption; try lia; try (unfold prec; lia).
    intros c H0. apply or_num_count. exact H0. }
  repeat split.
  - apply F; [intros c H; apply H | exact B1].
  - apply F; [intros c H; apply H | exact B3].
  - apply F; [intros c H; apply H | exact B4].
Qed.

Lemma prompt_totals_are_dashboard_totals_witness :
  let l :=
    [Campaign.mk "Spring" "ACTIVE" (of_Z 100) (of_Z 1000) lit_1_5 one
       (of_Z 12) (of_Z 30) (of_Z 20) (of_Z 250) lit_1_5;
     Campaign.mk "Summer" "PAUSED" (of_Z 40) (of_Z 500) zero zero
       zero zero zero zero zero] in
  ChatContext.totalSpend l = Totals.spend (totals l).
Proof.
  cbv zeta.
  apply (prompt_totals_are_dashboard_totals
    [Campaign.mk "Spring" "ACTIVE" (of_Z 100) (of_Z 1000) lit_1_5 one
       (of_Z 12) (of_Z 30) (of_Z 20) (of_Z 250) lit_1_5;
     Campaign.mk "Summer" "PAUSED" (of_Z 40) (of_Z 500) zero zero
       zero zero zero zero zero]).
  - repeat constructor; vm_compute; congruence.
  - repeat split; vm_compute; reflexivity.
Defined.

End DashboardProperties.

(** ** The chat client: what the assistant message shows *)

Section ChatProperties.
Import JS ChatClient ChatView.

Lemma append_empty_r (s : string) : s ++ "" = s.
Proof. induction s as [|c s IH]; cbn; [reflexivity | rewrite IH; reflexivity]. Qed.

Lemma append_append (a b c : string) : (a ++ b) ++ c = a ++ (b ++ c).
Proof. induction a as [|x a IH]; cbn; [reflexivity | rewrite IH; reflexivity]. Qed.

Lemma concat_cons (chunk : string) (chunks : list string) :
  String.concat "" (chunk :: chunks) = chunk ++ String.concat "" chunks.
Proof.
  destruct chunks as [|next chunks]; cbn [String.concat].
  - symmetry. apply append_empty_r.
  - reflexivity.
Qed.

(** Reading chunks shows each concatenation in turn and goes on. *)
Lemma readLoop_values (chunks : list string) (rest : list ReadResult)
    (fullText : string) (log : list Update) :
  readLoop fullText (map Value chunks ++ rest)%list log
  = readLoop (fullText ++ String.concat "" chunks) rest
      (log ++ shown fullText chunks)%list.
Proof.
  revert fullText log.
  induction chunks as [|chunk chunks IH]; intros fullText log.
  - cbn [map app shown String.concat]. rewrite append_empty_r, app_nil_r.
    reflexivity.
  - cbn [map app readLoop shown]. rewrite IH, concat_cons, append_append.
    rewrite <- app_assoc. reflexivity.
Qed.

Lemma contentOf_shown (chunks : list string) (fullText : string)
    (log : list Update) :
  contentOf (log ++ shown fullText chunks)%list
  = match chunks with
    | [] => contentOf log
    | _ => fullText ++ String.concat "" chunks
    end.
Proof.
  revert fullText log.
  induction chunks as [|chunk chunks IH]; intros fullText log.
  - cbn [shown]. rewrite app_nil_r. reflexivity.
  - cbn [shown].
    change (log ++ ShowText (fullText ++ chunk)
                   :: shown (fullText ++ chunk) chunks)%list
      with (log ++ [ShowText (fullText ++ chunk)]
                ++ shown (fullText ++ chunk) chunks)%list.
    rewrite app_assoc, IH, concat_cons.
    destruct chunks as [|next chunks].
    + unfold contentOf. rewrite last_last. cbn [String.concat].
      rewrite append_empty_r. reflexivity.
    + rewrite append_append. reflexivity.
Qed.

(** X11.  While the stream is read, and when it ends, the assistant
    message is the concatenation of the chunks received so far, in the
    order they arrived; the end of the stream settles the exchange
    without any further update or error. *)
Theorem stream_is_shown_in_order (chunks : list string)
    (later : list ReadResult) :
  let reading := sendChatMessage (Responds true (Some (map Value chunks))) in
  let ended :=
    sendChatMessage
      (Responds true (Some (map Value chunks ++ DoneReading :: later)%list)) in
  reading = Pending (shown "" chunks)
  /\ ended = Settled (shown "" chunks)
  /\ contentOf (logOf reading) = String.concat "" chunks
  /\ contentOf (logOf ended) = String.concat "" chunks
  /\ existsb isError (logOf ended) = false.
Proof.
  cbv zeta. cbn [sendChatMessage].
  rewrite <- (app_nil_r (map Value chunks)) at 1 3.
  rewrite !readLoop_values. cbn [readLoop app logOf].
  assert (C : contentOf (shown "" chunks) = String.concat "" chunks).
  { rewrite <- (app_nil_l (shown "" chunks)), contentOf_shown.
    destruct chunks; reflexivity. }
  repeat split; try exact C.
  clear C. generalize "". induction chunks as [|c chunks IH]; intro t.
  - reflexivity.
  - cbn [shown existsb isError orb]. apply IH.
Qed.

(** X12.  A failure that is not an abort replaces the assistant message:
    whatever chunks were shown before, the message ends as the error text
    built from the failure, be it a rejected read, a rejected fetch, a
    response that is not ok or a response without body. *)
Theorem failure_replaces_message (chunks : list string) (name : string)
    (message : option string) (later : list ReadResult)
    (body : option (list ReadResult)) :
  String.eqb name "AbortError" = false ->
  contentOf
    (logOf (sendChatMessage
              (Responds true
                 (Some (map Value chunks
                        ++ ReadRejects name message :: later)%list))))
  = errorContent message
  /\ sendChatMessage (FetchRejects name message)
     = Settled [ShowError (errorContent message)]
  /\ sendChatMessage (Responds false body)
     = Settled [ShowError (errorContent (Some "Error del servidor"))]
  /\ sendChatMessage (Responds true None)
     = Settled [ShowError (errorContent (Some "No stream"))].
Proof.
  intro N. cbn [sendChatMessage]. rewrite readLoop_values.
  cbn [readLoop logOf]. unfold catch. rewrite N.
  repeat split.
  unfold contentOf. rewrite last_last. reflexivity.
Qed.

Lemma failure_replaces_message_witness :
  contentOf
    (logOf (sendChatMessage
              (Responds true
                 (Some (map Value ["Hola"; " mundo"]
                        ++ ReadRejects "TypeError" (Some "network error")
                        :: [])%list))))
  = errorContent (Some "network error").
Proof.
  apply (failure_replaces_message ["Hola"; " mundo"] "TypeError"
           (Some "network error") [] None).
  reflexivity.
Defined.

End ChatProperties.

(** ** The loaders of the dashboard *)

Section LoaderProperties.
Import JS DashboardView.

(** X13.  After [loadAccounts] on the reply of the accounts route, the
    dashboard asks to connect unless the user has a connection with at
    least one account of status 1; then it selects the first such account
    and lists all of them.  Loading is over in every case, also when the
    request itself fails. *)
Theorem loadAccounts_after_route (st : State) (lookup : AccountsRoute.Lookup) :
  let st' := loadAccounts st (Some (AccountsRoute.GET lookup)) in
  loading st' = false
  /\ loading (loadAccounts st None) = false
  /\ needsConnection (loadAccounts st None) = true
  /\ (needsConnection st' = false <->
      exists l first rest,
        lookup = AccountsRoute.Connection (Some l)
        /\ filter AccountsRoute.isActive l = first :: rest)
  /\ (forall l first rest,
        lookup = AccountsRoute.Connection (Some l) ->
        filter AccountsRoute.isActive l = first :: rest ->
        selectedAccount st' = AccountsRoute.id first
        /\ accounts st' = map AccountsRoute.toAccount (first :: rest)).
Proof.
  cbv zeta. split; [|split; [reflexivity | split; [reflexivity | split]]].
  - destruct lookup as [| | |[l|]]; try reflexivity;
      cbn; destruct (filter _ _); reflexivity.
  - split.
    + destruct lookup as [| | |[l|]]; try discriminate.
      cbn. destruct (filter AccountsRoute.isActive l) as [|first rest] eqn:F.
      * discriminate.
      * intros _. exists l, first, rest. split; [reflexivity | exact F].
    + intros (l & first & rest & -> & F). cbn. rewrite F. reflexivity.
  - intros l first rest -> F. cbn. rewrite F. split; reflexivity.
Qed.

Lemma loadAccounts_after_route_witness :
  let raw := {| AccountsRoute.id := "act_2"; AccountsRoute.name := None;
                AccountsRoute.currency := Some "USD";
                AccountsRoute.account_status := Some (of_Z 1) |} in
  let closed := {| AccountsRoute.id := "act_1";
                   AccountsRoute.name := Some "Closed";
                   AccountsRoute.currency := None;
                   AccountsRoute.account_status := Some (of_Z 2) |} in
  let st := {| campaigns := []; accounts := []; selectedAccount := "";
               currency := "USD"; loading := true; needsConnection := false;
               error := None |} in
  selectedAccount
    (loadAccounts st
       (Some (AccountsRoute.GET
                (AccountsRoute.Connection (Some [closed; raw])))))
  = "act_2".
Proof.
  cbv zeta.
  destruct (loadAccounts_after_route
           {| campaigns := []; accounts := []; selectedAccount := "";
              currency := "USD"; loading := true; needsConnection := false;
              error := None |}
           (AccountsRoute.Connection
              (Some [{| AccountsRoute.id := "act_1";
                        AccountsRoute.name := Some "Closed";
                        AccountsRoute.currency := None;
                        AccountsRoute.account_status := Some (of_Z 2) |};
                     {| AccountsRoute.id := "act_2";
                        AccountsRoute.name := None;
                        AccountsRoute.currency := Some "USD";
                        AccountsRoute.account_status := Some (of_Z 1) |}])))
    as (_ & _ & _ & _ & S).
  apply (S _ {| AccountsRoute.id := "act_2"; AccountsRoute.name := None;
               AccountsRoute.currency := Some "USD";
               AccountsRoute.account_status := Some (of_Z 1) |} []
           eq_refl).
  reflexivity.
Defined.

(** X14.  A reload of the campaigns that fails (the request throws, or
    the route answers with a failure) keeps the campaigns and the currency
    loaded before; a reload that succeeds replaces them and leaves no
    error.  An error left by an earlier reload is cleared in both cases
    unless this reload sets its own, and loading is over at the end. *)
Theorem loadCampaigns_outcomes (st : State)
    (reply : option CampaignsGET.Reply) :
  let st' := loadCampaigns st reply in
  loading st' = false
  /\ (forall data cur total,
        reply = Some (CampaignsGET.Success data cur total) ->
        campaigns st' = data /\ error st' = None
        /\ currency st' = or_str (Some cur) "USD"
        /\ needsConnection st' = needsConnection st)
  /\ ((reply = None \/ exists status e n,
         reply = Some (CampaignsGET.Failure status e n)) ->
      campaigns st' = campaigns st /\ currency st' = currency st)
  /\ (reply = None -> error st' = Some "Error cargando campañas")
  /\ (forall status e,
        reply = Some (CampaignsGET.Failure status e true) ->
        needsConnection st' = true /\ error st' = None)
  /\ (forall status e,
        reply = Some (CampaignsGET.Failure status e false) ->
        error st' = e /\ needsConnection st' = needsConnection st).
Proof.
  cbv zeta. split; [|split; [|split; [|split; [|split]]]].
  - destruct reply as [[status e [|]|data cur total]|]; reflexivity.
  - intros data cur total ->. repeat split.
  - intros [-> | (status & e & n & ->)]; [split; reflexivity|].
    destruct n; split; reflexivity.
  - intros ->. reflexivity.
  - intros status e ->. split; reflexivity.
  - intros status e ->. split; reflexivity.
Qed.

Lemma loadCampaigns_outcomes_witness :
  let st := {| campaigns :=
                 [Campaign.mk "Spring" "ACTIVE" zero zero zero zero zero zero
                    zero zero zero];
               accounts := []; selectedAccount := "act_1";
               currency := "CRC"; loading := false; needsConnection := false;
               error := Some "old" |} in
  campaigns (loadCampaigns st None) = campaigns st
  /\ error (loadCampaigns st None) = Some "Error cargando campañas".
Proof.
  cbv zeta.
  destruct (loadCampaigns_outcomes
    {| campaigns :=
         [Campaign.mk "Spring" "ACTIVE" zero zero zero zero zero zero
            zero zero zero];
       accounts := []; selectedAccount := "act_1";
       currency := "CRC"; loading := false; needsConnection := false;
       error := Some "old" |} None) as (_ & _ & K & E & _).
  split.
  - apply K. left. reflexivity.
  - apply E. reflexivity.
Defined.

End LoaderProperties.

(** ** The advisory routes: requests and the order of the models *)

Section AdvisoryProperties.
Import JS Advisory.

(** X15.  A request without user, whose body does not parse or has no
    campaigns (analyze) or messages (chat), or that comes while the API
    key is not set, is answered without any model being run: the response
    is the same whatever the backends would do, and carries no chunk. *)
Theorem invalid_request_runs_no_model (request : Request)
    (backend backend' : string -> Generation) :
  user request = false \/ body request = None \/ body request = Some O
  \/ apiKey request = false ->
  analyzePOST request backend = analyzePOST request backend'
  /\ chatPOST request backend = chatPOST request backend'
  /\ forwarded (chatPOST request backend) = []
  /\ analyzePOST request backend <> None
  /\ chatPOST request backend <> None.
Proof.
  unfold analyzePOST, chatPOST.
  destruct request as [u [[|n]|] k]; cbn [user body apiKey];
    destruct u, k; cbn [negb];
    intros [H | [H | [H | H]]]; try discriminate H;
    repeat split; discriminate.
Qed.

Lemma invalid_request_runs_no_model_witness :
  chatPOST {| user := true; body := Some O; apiKey := true |}
    (fun _ => Streams ["Hola"] Finished)
  = chatPOST {| user := true; body := Some O; apiKey := true |}
      (fun _ => Throws None).
Proof.
  apply (invalid_request_runs_no_model
           {| user := true; body := Some O; apiKey := true |}
           (fun _ => Streams ["Hola"] Finished) (fun _ => Throws None)).
  right. right. left. reflexivity.
Defined.

Lemma last_cons_cons {A : Type} (x y : A) (l : list A) (d : A) :
  last (x :: y :: l) d = last (y :: l) d.
Proof. reflexivity. Qed.

Lemma last_In {A : Type} (x : A) (l : list A) (d : A) :
  In (last (x :: l) d) (x :: l).
Proof.
  revert x. induction l as [|y l IH]; intro x.
  - left. reflexivity.
  - rewrite last_cons_cons. right. apply IH.
Qed.

(** In a list without repetition, only the last model is the last one. *)
Lemma head_is_not_last (m next : string) (rest : list string) (d : string) :
  NoDup (m :: next :: rest) ->
  String.eqb m (last (m :: next :: rest) d) = false.
Proof.
  intro N. apply String.eqb_neq. intro E.
  inversion N as [|? ? Hnot _]. apply Hnot.
  rewrite last_cons_cons in E. rewrite E. apply last_In.
Qed.

(** X16.  For every list of distinct model names, the loop of the analyze
    route tries the models in order: it answers with the whole text of the
    first model whose generation finishes, and nothing of the models that
    failed before it; when every model fails it answers with the error
    text of the last one.  It never ends without a response. *)
Theorem analyze_tries_models_in_order (backend : string -> Generation)
    (ms : list string) (d : string) :
  NoDup ms -> ms <> [] ->
  analyzeLoop backend (last ms d) ms
  = match find (fun m => negb (failed (backend m))) ms with
    | Some m =>
        match awaitText (backend m) with
        | inl text => Some (Text text)
        | inr message => Some (Text (errorMsg message))
        end
    | None =>
        match awaitText (backend (last ms d)) with
        | inl text => Some (Text text)
        | inr message => Some (Text (errorMsg message))
        end
    end.
Proof.
  induction ms as [|m [|next rest] IH]; intros N NE.
  - contradiction NE. reflexivity.
  - cbn [last analyzeLoop find]. rewrite String.eqb_refl.
    destruct (backend m) as [e | chunks [|e]] eqn:E;
      cbn [awaitText failed negb]; rewrite ?E; reflexivity.
  - rewrite last_cons_cons. cbn [analyzeLoop find].
    rewrite <- (last_cons_cons m next rest d), (head_is_not_last _ _ _ _ N).
    rewrite last_cons_cons.
    inversion N as [|? ? _ N']. specialize (IH N' ltac:(discriminate)).
    destruct (backend m) as [e | chunks [|e]] eqn:E;
      cbn [awaitText failed negb]; rewrite ?E; cbn [awaitText];
      try reflexivity; exact IH.
Qed.

Lemma analyze_tries_models_in_order_witness :
  analyze
    (fun m => if String.eqb m "gemini-3-flash-preview"
              then Streams ["Resumen"; " ejecutivo"] Finished
              else Streams ["Res"] (Errored (Some "overloaded")))
  = Some (Text "Resumen ejecutivo").
Proof.
  apply (analyze_tries_models_in_order
           (fun m => if String.eqb m "gemini-3-flash-preview"
                     then Streams ["Resumen"; " ejecutivo"] Finished
                     else Streams ["Res"] (Errored (Some "overloaded")))
           models "").
  - repeat constructor; cbn; intuition discriminate.
  - discriminate.
Defined.

(** X17.  For every list of distinct model names, the loop of the chat
    route answers with the stream of the first model whose call returns,
    however that stream ends, and with the error text only when every
    call throws; then the text is built from the last error. *)
Theorem chat_returns_first_stream (backend : string -> Generation)
    (ms : list string) (d : string) :
  NoDup ms -> ms <> [] ->
  chatLoop backend (last ms d) ms
  = match find (fun m => match backend m with
                         | Streams _ _ => true
                         | Throws _ => false
                         end) ms with
    | Some m =>
        match backend m with
        | Streams chunks ending => Some (TextStream chunks ending)
        | Throws message => Some (Text (errorMsg message))
        end
    | None =>
        match backend (last ms d) with
        | Streams chunks ending => Some (TextStream chunks ending)
        | Throws message => Some (Text (errorMsg message))
        end
    end.
Proof.
  induction ms as [|m [|next rest] IH]; intros N NE.
  - contradiction NE. reflexivity.
  - cbn [last chatLoop find]. rewrite String.eqb_refl.
    destruct (backend m) as [e | chunks ending] eqn:E; rewrite ?E;
      reflexivity.
  - rewrite last_cons_cons. cbn [chatLoop find].
    rewrite <- (last_cons_cons m next rest d), (head_is_not_last _ _ _ _ N).
    rewrite last_cons_cons.
    inversion N as [|? ? _ N']. specialize (IH N' ltac:(discriminate)).
    destruct (backend m) as [e | chunks ending] eqn:E; rewrite ?E;
      [exact IH | reflexivity].
Qed.

Lemma chat_returns_first_stream_witness :
  chat
    (fun m => if String.eqb m "gemini-3-flash-preview"
              then Streams ["Hola"] Finished
              else Throws (Some "model not found"))
  = Some (TextStream ["Hola"] Finished).
Proof.
  apply (chat_returns_first_stream
           (fun m => if String.eqb m "gemini-3-flash-preview"
                     then Streams ["Hola"] Finished
                     else Throws (Some "model not found"))
           models "").
  - repeat constructor; cbn; intuition discriminate.
  - discriminate.
Defined.

End AdvisoryProperties.

(** ** The Shopify orders route *)

Section ShopifyProperties.
Import JS ShopifyOrders.

(** X18.  Only paid and partially paid orders count: an order in any
    other financial status, or without one, changes neither the number of
    orders, nor the revenue, nor the average, nor the listed orders. *)
Theorem unpaid_orders_are_ignored (before after : list Order) (o : Order) :
  isPaid o = false ->
  let with_o := paidOrders (Some (before ++ o :: after)%list) in
  let without := paidOrders (Some (before ++ after)%list) in
  with_o = without
  /\ totalOrders with_o = totalOrders without
  /\ totalRevenue with_o = totalRevenue without
  /\ avgOrderValue with_o = avgOrderValue without
  /\ orders with_o = orders without.
Proof.
  intro H. cbv zeta.
  assert (E : paidOrders (Some (before ++ o :: after)%list)
              = paidOrders (Some (before ++ after)%list)).
  { unfold paidOrders. rewrite !filter_app. cbn [filter]. rewrite H.
    reflexivity. }
  rewrite E. repeat split.
Qed.

Lemma unpaid_orders_are_ignored_witness :
  let paid := {| name := Some "#1001"; created_at := Some "2025-01-02T10:00";
                 total_price := Some "25.50";
                 financial_status := Some "paid"; source_name := None |} in
  let refunded := {| name := Some "#1002"; created_at := None;
                     total_price := Some "80";
                     financial_status := Some "refunded";
                     source_name := None |} in
  totalRevenue (paidOrders (Some ([paid] ++ refunded :: [])%list))
  = totalRevenue (paidOrders (Some ([paid] ++ [])%list)).
Proof.
  cbv zeta.
  apply (unpaid_orders_are_ignored
           [{| name := Some "#1001"; created_at := Some "2025-01-02T10:00";
               total_price := Some "25.50";
               financial_status := Some "paid"; source_name := None |}]
           []
           {| name := Some "#1002"; created_at := None;
              total_price := Some "80";
              financial_status := Some "refunded"; source_name := None |}).
  reflexivity.
Defined.



End ShopifyProperties.

(** ** [renderMarkdown] *)

Section MarkdownProperties.
Import JS Markdown.

Lemma length_append (a b : string) :
  String.length (a ++ b) = (String.length a + String.length b)%nat.
Proof. induction a as [|c a IH]; cbn; [reflexivity | rewrite IH; reflexivity]. Qed.

Lemma isNewline_eq (c : ascii) : isNewline c = true -> c = ascii_of_nat 10.
Proof.
  unfold isNewline. intro H. apply N.eqb_eq in H.
  rewrite <- (ascii_N_embedding c), H. reflexivity.
Qed.

Lemma splitLines_cons (text : string) :
  exists line lines, splitLines text = line :: lines.
Proof.
  induction text as [|c rest (line & lines & E)]; cbn [splitLines].
  - eexists _, _. reflexivity.
  - destruct (isNewline c); [eexists _, _; reflexivity|].
    rewrite E. eexists _, _. reflexivity.
Qed.

Lemma concat_String (sep : string) (c : ascii) (line : string)
    (lines : list string) :
  String.concat sep (String c line :: lines)
  = String c (String.concat sep (line :: lines)).
Proof. destruct lines; reflexivity. Qed.

(** X20.  [renderMarkdown] gives one block per line of the text, that is
    one more than the text has newlines, and the split into lines loses
    nothing: the lines joined by newlines are the text. *)
Theorem renderMarkdown_one_block_per_line (text : string) :
  List.length (renderMarkdown text) = S (newlines text)
  /\ String.concat Advisory.nl (splitLines text) = text.
Proof.
  unfold renderMarkdown. rewrite length_map. split.
  - induction text as [|c rest IH]; cbn [splitLines newlines].
    + reflexivity.
    + destruct (isNewline c).
      * cbn [List.length]. rewrite IH. reflexivity.
      * destruct (splitLines_cons rest) as (line & lines & E).
        rewrite E in *. cbn [List.length] in *. lia.
  - induction text as [|c rest IH]; cbn [splitLines].
    + reflexivity.
    + destruct (isNewline c) eqn:N.
      * apply isNewline_eq in N. subst c.
        destruct (splitLines_cons rest) as (line & lines & E).
        rewrite E in *.
        change (String.concat Advisory.nl ("" :: line :: lines))
          with ("" ++ Advisory.nl
                ++ String.concat Advisory.nl (line :: lines)).
        rewrite IH. reflexivity.
      * destruct (splitLines_cons rest) as (line & lines & E).
        rewrite E in *. rewrite concat_String, IH. reflexivity.
Qed.

Lemma noStars_spec (s : string) :
  s = fst (noStars s) ++ snd (noStars s)
  /\ starFree (fst (noStars s)) = true.
Proof.
  induction s as [|c s [E F]]; cbn [noStars].
  - split; reflexivity.
  - destruct (Ascii.eqb c "*") eqn:C.
    + split; reflexivity.
    + destruct (noStars s) as [run after]. cbn [fst snd] in *.
      split; [cbn; rewrite <- E; reflexivity|].
      cbn [starFree]. rewrite C, F. reflexivity.
Qed.

(** What a match of the bold pattern tells about the string. *)
Lemma boldAt_sound (s run after : string) :
  boldAt s = Some (run, after) ->
  s = "**" ++ run ++ "**" ++ after /\ run <> "" /\ starFree run = true.
Proof.
  unfold boldAt.
  destruct s as [|a [|b rest]]; try discriminate.
  - destruct a as [[] [] [] [] [] [] [] []]; discriminate.
  - destruct (Ascii.eqb a "*") eqn:A;
      [apply Ascii.eqb_eq in A; subst a
      | destruct a as [[] [] [] [] [] [] [] []]; try discriminate;
        destruct b as [[] [] [] [] [] [] [] []]; discriminate].
    destruct (Ascii.eqb b "*") eqn:B;
      [apply Ascii.eqb_eq in B; subst b
      | destruct b as [[] [] [] [] [] [] [] []]; discriminate].
    destruct (noStars_spec rest) as [E F].
    destruct (noStars rest) as [r t]. cbn [fst snd] in *.
    destruct r as [|c r]; [discriminate|].
    destruct t as [|x [|y t]]; try discriminate.
    + destruct x as [[] [] [] [] [] [] [] []]; discriminate.
    + destruct (Ascii.eqb x "*") eqn:X;
        [apply Ascii.eqb_eq in X; subst x
        | destruct x as [[] [] [] [] [] [] [] []]; try discriminate;
          destruct y as [[] [] [] [] [] [] [] []]; discriminate].
      destruct (Ascii.eqb y "*") eqn:Y;
        [apply Ascii.eqb_eq in Y; subst y
        | destruct y as [[] [] [] [] [] [] [] []]; discriminate].
      intro H. injection H as <- <-.
      split; [cbn; rewrite E; reflexivity | split; [discriminate | exact F]].
Qed.

Lemma splitFrom_concat (fuel : nat) (s text : string) :
  String.concat "" (splitFrom fuel s text) = text ++ s.
Proof.
  revert s text. induction fuel as [|fuel IH]; intros s text; cbn [splitFrom].
  - reflexivity.
  - destruct (boldAt s) as [[run after]|] eqn:B.
    + apply boldAt_sound in B. destruct B as (-> & _ & _).
      rewrite !concat_cons, IH. cbn [append].
      rewrite (append_append run "**" after). reflexivity.
    + destruct s as [|c rest].
      * cbn. symmetry. apply append_empty_r.
      * rewrite IH, append_append. reflexivity.
Qed.

Lemma splitFrom_fuel (n m : nat) (s text : string) :
  (String.length s <= n)%nat -> (String.length s <= m)%nat ->
  splitFrom n s text = splitFrom m s text.
Proof.
  revert m s text. induction n as [|n IH]; intros m s text Hn Hm.
  - destruct s; [|cbn in Hn; lia]. destruct m; cbn [splitFrom].
    + reflexivity.
    + cbn. rewrite append_empty_r. reflexivity.
  - destruct m as [|m].
    + destruct s; [|cbn in Hm; lia]. cbn. rewrite append_empty_r.
      reflexivity.
    + cbn [splitFrom]. destruct (boldAt s) as [[run after]|] eqn:B.
      * apply boldAt_sound in B. destruct B as (-> & _ & _).
        rewrite !length_append in Hn, Hm. cbn [String.length] in Hn, Hm.
        rewrite (IH m after "") by lia. reflexivity.
      * destruct s as [|c rest]; [reflexivity|].
        cbn [String.length] in Hn, Hm. apply IH; lia.
Qed.

(** X21.  Splitting a line at its bold tokens loses nothing: the parts
    put together again are the line.  The split tries every position of
    the line: more fuel than the length of the line changes nothing. *)
Theorem splitBold_keeps_the_text (line : string) (fuel : nat) :
  String.concat "" (splitBold line) = line
  /\ ((String.length line <= fuel)%nat ->
      splitFrom fuel line "" = splitBold line).
Proof.
  unfold splitBold. split.
  - apply splitFrom_concat.
  - intro H. apply splitFrom_fuel; [exact H | lia].
Qed.

Lemma splitBold_keeps_the_text_witness :
  splitFrom 100 "gasto **alto** hoy" "" = ["gasto "; "**alto**"; " hoy"].
Proof.
  rewrite (proj2 (splitBold_keeps_the_text "gasto **alto** hoy" 100)).
  - reflexivity.
  - cbn. lia.
Defined.

Lemma boldAt_starFree (s : string) : starFree s = true -> boldAt s = None.
Proof.
  destruct s as [|c rest]; [reflexivity|]. cbn [starFree]. intro H.
  apply andb_true_iff in H. destruct H as [H _].
  destruct c as [[] [] [] [] [] [] [] []]; try discriminate H; reflexivity.
Qed.

Lemma splitFrom_starFree (fuel : nat) (s text : string) :
  starFree s = true -> splitFrom fuel s text = [text ++ s].
Proof.
  revert s text. induction fuel as [|fuel IH]; intros s text F;
    cbn [splitFrom]; [reflexivity|].
  rewrite (boldAt_starFree s F). destruct s as [|c rest].
  - rewrite append_empty_r. reflexivity.
  - cbn [starFree] in F. apply andb_true_iff in F. destruct F as [_ F].
    rewrite (IH rest _ F), append_append. reflexivity.
Qed.

Lemma splitFrom_skip (pre : string) (fuel : nat) (s text : string) :
  starFree pre = true ->
  boldAt (pre ++ s) = None \/ pre = "" ->
  splitFrom (String.length pre + fuel) (pre ++ s) text
  = splitFrom fuel s (text ++ pre).
Proof.
  revert text. induction pre as [|c pre IH]; intros text F _.
  - rewrite append_empty_r. reflexivity.
  - cbn [String.length Nat.add append splitFrom].
    assert (B : boldAt (String c (pre ++ s)) = None).
    { cbn [starFree] in F. apply andb_true_iff in F. destruct F as [F _].
      destruct c as [[] [] [] [] [] [] [] []]; try discriminate F;
        reflexivity. }
    rewrite B. cbn [starFree] in F. apply andb_true_iff in F.
    destruct F as [_ F].
    rewrite IH by (assumption || (destruct pre; [right; reflexivity|];
      left; cbn [starFree] in F; apply andb_true_iff in F;
      destruct F as [F _]; destruct a as [[] [] [] [] [] [] [] []];
      try discriminate F; reflexivity)).
    rewrite append_append. reflexivity.
Qed.

Lemma noStars_append (run rest : string) :
  starFree run = true ->
  noStars (run ++ String "*" (String "*" rest))
  = (run, String "*" (String "*" rest)).
Proof.
  induction run as [|c run IH]; intro F; [reflexivity|].
  cbn [starFree] in F. apply andb_true_iff in F. destruct F as [C F].
  cbn [append noStars]. apply negb_true_iff in C. rewrite C, (IH F).
  reflexivity.
Qed.

Lemma boldAt_token (run rest : string) :
  starFree run = true -> run <> "" ->
  boldAt ("**" ++ run ++ "**" ++ rest) = Some (run, rest).
Proof.
  intros F N. cbn [append boldAt].
  rewrite (noStars_append run rest F).
  destruct run as [|c run]; [contradiction N; reflexivity | reflexivity].
Qed.

Lemma substring_skip (a b : string) (k m : nat) :
  substring (String.length a + k) m (a ++ b) = substring k m b.
Proof. induction a as [|c a IH]; [reflexivity | exact IH]. Qed.

Lemma substring_prefix (a b : string) :
  substring 0 (String.length a) (a ++ b) = a.
Proof.
  induction a as [|c a IH]; cbn.
  - destruct b; reflexivity.
  - rewrite IH. reflexivity.
Qed.

(** The token of a match is rendered in bold, without its stars. *)
Lemma renderPart_token (run : string) :
  renderPart ("**" ++ run ++ "**") = Strong run.
Proof.
  unfold renderPart, endsWith, inner.
  assert (L : String.length ("**" ++ run ++ "**")
              = (String.length run + 4)%nat).
  { cbn [append String.length]. rewrite length_append. cbn. lia. }
  rewrite L. cbn [String.length append prefix].
  assert (E1 : substring (String.length run + 4 - 2) 2
                 (String "*" (String "*" (run ++ "**"))) = "**").
  { replace (String.length run + 4 - 2)%nat
      with (S (S (String.length run + 0))) by lia.
    cbn [substring]. rewrite substring_skip. reflexivity. }
  assert (E2 : substring 2 (String.length run + 4 - 4)
                 (String "*" (String "*" (run ++ "**"))) = run).
  { replace (String.length run + 4 - 4)%nat with (String.length run) by lia.
    cbn [substring]. apply substring_prefix. }
  rewrite E1, E2.
  replace (2 <=? String.length run + 4)%nat with true
    by (symmetry; apply Nat.leb_le; lia).
  destruct run; reflexivity.
Qed.

Lemma renderPart_starFree (s : string) :
  starFree s = true -> renderPart s = Span s.
Proof.
  intro F. unfold renderPart.
  destruct s as [|c rest]; [reflexivity|].
  cbn [starFree] in F. apply andb_true_iff in F. destruct F as [F _].
  destruct c as [[] [] [] [] [] [] [] []]; try discriminate F; reflexivity.
Qed.

(** X22.  In a line with one bold token and no other star, the text
    before the token, the text between its stars, in bold, and the text
    after it are rendered, in this order. *)
Theorem bold_token_is_rendered (before run after : string) :
  starFree before = true -> starFree run = true -> starFree after = true ->
  run <> "" ->
  map renderPart (splitBold (before ++ "**" ++ run ++ "**" ++ after))
  = [Span before; Strong run; Span after].
Proof.
  intros Fb Fr Fa N. unfold splitBold.
  rewrite length_append.
  rewrite (splitFrom_skip before _ _ "" Fb).
  - assert (L : String.length ("**" ++ run ++ "**" ++ after)
                = S (String.length run + 3 + String.length after)).
    { cbn [append String.length]. rewrite length_append. cbn. lia. }
    rewrite L. cbn [splitFrom]. rewrite (boldAt_token run after Fr N).
    rewrite (splitFrom_starFree _ after "" Fa).
    cbn [map]. rewrite (renderPart_token run). cbn [append].
    rewrite (renderPart_starFree before Fb), (renderPart_starFree after Fa).
    reflexivity.
  - destruct before as [|c rest]; [right; reflexivity|]. left.
    cbn [starFree] in Fb. apply andb_true_iff in Fb. destruct Fb as [Fb _].
    destruct c as [[] [] [] [] [] [] [] []]; try discriminate Fb;
      reflexivity.
Qed.

Lemma bold_token_is_rendered_witness :
  map renderPart (splitBold ("El ROAS es " ++ "**" ++ "2.5x" ++ "**" ++ "."))
  = [Span "El ROAS es "; Strong "2.5x"; Span "."].
Proof.
  apply (bold_token_is_rendered "El ROAS es " "2.5x" ".");
    (reflexivity || discriminate).
Defined.

(** A line without newline, followed by a newline, is the first element
    of the split. *)
Lemma splitLines_line (line rest : string) :
  newlines line = O ->
  splitLines (line ++ Advisory.nl ++ rest) = line :: splitLines rest.
Proof.
  induction line as [|c line IH]; intro H.
  - reflexivity.
  - cbn [newlines] in H. cbn [append splitLines].
    destruct (isNewline c); [discriminate H|].
    rewrite (IH H). reflexivity.
Qed.

(** X23.  The error texts of the chat client and of the two routes are
    rendered as a level-1 heading, a spacer, and then the rendering of the
    message of the error. *)
Theorem error_text_is_a_heading (message : option string) :
  renderMarkdown (ChatClient.errorContent message)
  = H1 "⚠️ Error" :: Spacer
    :: renderMarkdown (or_str message "Error desconocido")
  /\ renderMarkdown (Advisory.errorMsg message)
     = H1 "⚠️ Error de Gemini" :: Spacer
       :: renderMarkdown (or_str message "Error desconocido").
Proof.
  unfold ChatClient.errorContent, Advisory.errorMsg, renderMarkdown.
  generalize (or_str message "Error desconocido"). intro text.
  split.
  - rewrite (splitLines_line "# ⚠️ Error") by reflexivity.
    change (Advisory.nl ++ text) with ("" ++ Advisory.nl ++ text).
    rewrite (splitLines_line "" text) by reflexivity.
    cbn [map].
    replace (renderLine "# ⚠️ Error") with (H1 "⚠️ Error")
      by (vm_compute; reflexivity).
    replace (renderLine "") with Spacer by (vm_compute; reflexivity).
    reflexivity.
  - rewrite (splitLines_line "# ⚠️ Error de Gemini") by reflexivity.
    change (Advisory.nl ++ text) with ("" ++ Advisory.nl ++ text).
    rewrite (splitLines_line "" text) by reflexivity.
    cbn [map].
    replace (renderLine "# ⚠️ Error de Gemini")
      with (H1 "⚠️ Error de Gemini") by (vm_compute; reflexivity).
    replace (renderLine "") with Spacer by (vm_compute; reflexivity).
    reflexivity.
Qed.

(** Two stars after a text add no line terminator to it. *)
Lemma lineTerminatorAt_stars (c : ascii) (label rest : string) :
  lineTerminatorAt (String c (label ++ String "*" rest))
  = lineTerminatorAt (String c label).
Proof.
  destruct label as [|c2 [|c3 label]]; cbn [lineTerminatorAt append];
    change (N.eqb (N_of_ascii "*") 128) with false;
    change (N.eqb (N_of_ascii "*") 168) with false;
    change (N.eqb (N_of_ascii "*") 169) with false;
    cbn [orb andb]; rewrite ?andb_false_r; try reflexivity.
  destruct rest; rewrite ?andb_false_r; reflexivity.
Qed.

Lemma untilStars_label (label rest : string) :
  starFree label = true -> noBreak label = true ->
  untilStars (label ++ String "*" (String "*" rest)) = Some (label, rest).
Proof.
  induction label as [|c label IH]; intros F B; [reflexivity|].
  cbn [starFree noBreak] in F, B.
  apply andb_true_iff in F. destruct F as [C F].
  apply andb_true_iff in B. destruct B as [L B].
  apply negb_true_iff in L.
  rewrite <- (lineTerminatorAt_stars c label (String "*" rest)) in L.
  cbn [append untilStars]. rewrite L, (IH F B).
  destruct c as [[] [] [] [] [] [] [] []]; try discriminate C; reflexivity.
Qed.

Lemma dots_noBreak (s : string) : noBreak s = true -> dots s = s.
Proof.
  induction s as [|c s IH]; intro B; [reflexivity|].
  cbn [noBreak] in B. apply andb_true_iff in B. destruct B as [L B].
  apply negb_true_iff in L. cbn [dots]. rewrite L, (IH B). reflexivity.
Qed.

(** X24.  A bullet that opens with a label between two pairs of stars is
    rendered as a bullet with the label in bold and then the rest of the
    line, when the label is not empty and has no star, and neither the
    label nor the rest has a line terminator (LF, CR, U+2028, U+2029). *)
Theorem labelled_bullet_is_rendered (label rest : string) :
  label <> "" ->
  starFree label = true -> noBreak label = true -> noBreak rest = true ->
  renderLine ("- **" ++ label ++ "**" ++ rest) = BoldBullet label rest.
Proof.
  intros N F B R.
  destruct label as [|c label]; [contradiction N; reflexivity|].
  cbn [starFree noBreak] in F, B.
  apply andb_true_iff in F. destruct F as [C F].
  apply andb_true_iff in B. destruct B as [L B].
  apply negb_true_iff in L.
  rewrite <- (lineTerminatorAt_stars c label (String "*" rest)) in L.
  unfold renderLine. cbn [append].
  replace (prefix "### " (String "-" (String " " (String "*" (String "*"
             (String c (label ++ String "*" (String "*" rest))))))))
    with false by reflexivity.
  replace (prefix "## " (String "-" (String " " (String "*" (String "*"
             (String c (label ++ String "*" (String "*" rest))))))))
    with false by reflexivity.
  replace (prefix "# " (String "-" (String " " (String "*" (String "*"
             (String c (label ++ String "*" (String "*" rest))))))))
    with false by reflexivity.
  replace (prefix "---" (String "-" (String " " (String "*" (String "*"
             (String c (label ++ String "*" (String "*" rest))))))))
    with false by reflexivity.
  replace (prefix "- **" (String "-" (String " " (String "*" (String "*"
             (String c (label ++ String "*" (String "*" rest))))))))
    with true by reflexivity.
  unfold matchBoldBullet. cbn [slice]. rewrite L.
  rewrite (untilStars_label label rest F B), (dots_noBreak rest R).
  reflexivity.
Qed.

Lemma labelled_bullet_is_rendered_witness :
  renderLine ("- **" ++ "CTR" ++ "**" ++ ": 2.1%") = BoldBullet "CTR" ": 2.1%".
Proof.
  apply (labelled_bullet_is_rendered "CTR" ": 2.1%");
    (reflexivity || discriminate).
Defined.

End MarkdownProperties.

(** ** The KPI cards and the status views *)

Section KpiProperties.
Import JS Dashboard Count.

Lemma add_not_negative (x y : number) :
  ltb x zero = false -> ltb y zero = false -> ltb (add x y) zero = false.
Proof.
  intros Hx Hy.
  destruct x as [sx|sx| |sx mx ex]; try reflexivity;
    destruct sx; try discriminate Hx;
    destruct y as [sy|sy| |sy my ey]; try reflexivity;
    destruct sy; try discriminate Hy; try reflexivity.
  unfold add, SFadd. cbn [cond_Zopp].
  set (ez := Z.min ex ey).
  destruct (shl_align mx ex ez) as [ma ea].
  destruct (shl_align my ey ez) as [mb eb]. cbn [fst Z.add binary_normalize].
  unfold binary_round.
  destruct (shl_align (ma + mb) ez _) as [mz e'].
  apply round_aux_not_negative.
Qed.

Lemma fold_add_not_negative {A : Type} (g : A -> number) (l : list A)
    (start : number) :
  ltb start zero = false ->
  (forall c, In c l -> ltb (g c) zero = false) ->
  ltb (fold_left (fun acc c => add acc (g c)) l start) zero = false.
Proof.
  revert start. induction l as [|c l IH]; intros start Hs H; [exact Hs|].
  cbn [fold_left]. apply IH.
  - apply add_not_negative; [exact Hs | apply H; left; reflexivity].
  - intros x Hx. apply H. right. exact Hx.
Qed.

(** X25.  The cards never show a negative ratio when no campaign has a
    negative value: with no negative revenue the general ROAS is not
    below 0, with no negative spend the general CPA is not below 0, and
    with no negative ctr the mean CTR of fewer than 2^53 campaigns is not
    below 0.  Each ratio is 0 when its divisor is not above 0. *)
Theorem cards_are_not_negative (filtered : list Campaign.t) :
  ((forall c, In c filtered -> ltb (Campaign.revenue c) zero = false) ->
   ltb (roasGeneral (totals filtered)) zero = false)
  /\ ((forall c, In c filtered -> ltb (Campaign.spend c) zero = false) ->
      ltb (cpaGeneral (totals filtered)) zero = false)
  /\ ((forall c, In c filtered -> ltb (Campaign.ctr c) zero = false) ->
      Z.of_nat (List.length filtered) < 2 ^ 53 ->
      ltb (ctrPromedio filtered) zero = false)
  /\ (gtb (Totals.spend (totals filtered)) zero = false ->
      roasGeneral (totals filtered) = zero)
  /\ (gtb (Totals.purchases (totals filtered)) zero = false ->
      cpaGeneral (totals filtered) = zero).
Proof.
  unfold roasGeneral, cpaGeneral, totals.
  destruct (totals_fields filtered noTotals) as (T1 & _ & T3 & T4 & _).
  rewrite T1, T3, T4.
  cbn [noTotals Totals.spend Totals.revenue Totals.purchases].
  split; [|split; [|split; [|split]]].
  - intro H.
    destruct (gtb (fold_left _ filtered zero) zero) eqn:G; [|reflexivity].
    apply div_not_negative; [|exact G].
    apply fold_add_not_negative; [reflexivity | exact H].
  - intro H.
    destruct (gtb (fold_left (fun a c => add a (Campaign.purchases c))
                     filtered zero) zero) eqn:G; [|reflexivity].
    apply div_not_negative; [|exact G].
    apply fold_add_not_negative; [reflexivity | exact H].
  - intros H B. unfold ctrPromedio.
    destruct filtered as [|c rest]; [reflexivity|].
    apply div_not_negative.
    + apply fold_add_not_negative; [reflexivity | exact H].
    + assert (P : 0 < Z.of_nat (List.length (c :: rest)))
        by (cbn [List.length]; lia).
      destruct (Z.of_nat (List.length (c :: rest))) as [|p|p] eqn:E;
        try lia.
      rewrite of_Z_pos by (apply digits_bound; unfold prec; lia).
      reflexivity.
  - intros ->. reflexivity.
  - intros ->. reflexivity.
Qed.

Lemma cards_are_not_negative_witness :
  ltb (roasGeneral
         (totals
            [Campaign.mk "a" "ACTIVE" (of_Z 100) (of_Z 1000) lit_1_5 one
               (of_Z 12) zero zero (of_Z 250) lit_1_5]))
      zero = false.
Proof.
  refine (proj1 (cards_are_not_negative
           [Campaign.mk "a" "ACTIVE" (of_Z 100) (of_Z 1000) lit_1_5 one
              (of_Z 12) zero zero (of_Z 250) lit_1_5]) _).
  intros c [<- | []]. reflexivity.
Defined.

(** X26.  When every campaign is ACTIVE, PAUSED or ARCHIVED, the three
    status views split the list: put together they hold the same records
    as the view of ALL, each record once, so that their sizes add up to
    the size of the list. *)
Theorem status_views_partition (campaigns : list Campaign.t) :
  Forall filterable campaigns ->
  Permutation (filteredCampaigns ALL campaigns)
    (filteredCampaigns ACTIVE campaigns
     ++ filteredCampaigns PAUSED campaigns
     ++ filteredCampaigns ARCHIVED campaigns)
  /\ List.length (filteredCampaigns ALL campaigns)
     = (List.length (filteredCampaigns ACTIVE campaigns)
        + List.length (filteredCampaigns PAUSED campaigns)
        + List.length (filteredCampaigns ARCHIVED campaigns))%nat.
Proof.
  intro H.
  assert (P : Permutation (filteredCampaigns ALL campaigns)
                (filteredCampaigns ACTIVE campaigns
                 ++ filteredCampaigns PAUSED campaigns
                 ++ filteredCampaigns ARCHIVED campaigns)).
  { unfold filteredCampaigns, filterName.
    induction H as [|c l Hc _ IH]; [constructor|].
    unfold filterable in Hc. cbn [In] in Hc. cbn [filter].
    destruct Hc as [E | [E | [E | []]]]; rewrite <- E;
      cbn [String.eqb Ascii.eqb Bool.eqb].
    - cbn [app]. constructor. exact IH.
    - apply Permutation_cons_app. exact IH.
    - rewrite app_assoc. apply Permutation_cons_app.
      rewrite <- app_assoc. exact IH. }
  split; [exact P|].
  rewrite (Permutation_length P), !length_app. lia.
Qed.

Lemma status_views_partition_witness :
  let l :=
    [Campaign.mk "a" "PAUSED" zero zero zero zero zero zero zero zero zero;
     Campaign.mk "b" "ACTIVE" zero zero zero zero zero zero zero zero zero] in
  Permutation (filteredCampaigns ALL l)
    (filteredCampaigns ACTIVE l ++ filteredCampaigns PAUSED l
     ++ filteredCampaigns ARCHIVED l).
Proof.
  cbv zeta.
  apply (status_views_partition
    [Campaign.mk "a" "PAUSED" zero zero zero zero zero zero zero zero zero;
     Campaign.mk "b" "ACTIVE" zero zero zero zero zero zero zero zero zero]).
  repeat constructor; unfold filterable; cbn; tauto.
Defined.

End KpiProperties.
